(** * restclient: a shallow embedding of [Client.Do] and its helpers

    The repository holds two revisions of the package [restclient]:
    [src/restclient.go] and [src/unnamed/part_000].  Both are embedded
    here, the first in [Module Restclient], the second in
    [Module Part000]; what the two files share word for word
    ([Method], [Client], [unmarshal], the query-parameter loop) is
    embedded once.

    The Go standard library ([net/url], [net/http], [encoding/json],
    [runtime]) is not part of the repository.  The parts of it that
    [Do] relies on are collected in the classes [JSON] and [Lib]; the
    parts whose
    behaviour [Do] depends on structurally (header maps, [Values.Set],
    the way [json.Unmarshal] writes through its pointer argument) are
    written out. *)

From Stdlib Require Import ZArith Ascii String List.
From stdpp Require Import base gmap strings list pretty sorting.

Open Scope string_scope.
Open Scope list_scope.
Open Scope Z_scope.

(** ** Go values *)

(** A Go [error], identified with the text [err.Error()] returns. *)
Definition error := string.

(** Addresses of caller-owned objects (what a [*T] points to). *)
Definition addr := positive.

(** A [time.Time], counted from the zero value of the type. *)
Definition Time := Z.
Definition zeroTime : Time := 0.

(** An [interface{}]: the untyped [nil], a pointer to an object of the
    caller, or any other (non-pointer) value.  A pointer at whose
    address the memory holds no object stands for a nil pointer of some
    type: not equal to [nil], with nothing to decode into. *)
Inductive any (V : Type) :=
| Nil
| Ptr (p : addr)
| Val (v : V).
Arguments Nil {V}.
Arguments Ptr {V} p.
Arguments Val {V} v.

(** [x == nil] on an [interface{}]. *)
Definition is_nil {V} (x : any V) : bool :=
  match x with Nil => true | _ => false end.

(** ** net/url and net/http, as far as [Do] touches them *)

Module url.

(** [url.URL]; [Do] reads the whole structure through [String] and
    [Query] and writes [RawQuery] only. *)
Record URL := mkURL {
  Scheme : string;
  Opaque : string;
  Host : string;
  Path : string;
  RawQuery : string;
  Fragment : string
}.

(** [u.RawQuery = q] *)
Definition setRawQuery (u : URL) (q : string) : URL :=
  mkURL (Scheme u) (Opaque u) (Host u) (Path u) q (Fragment u).

(** [url.Values], a [map[string][]string]. *)
Abbreviation Values := (gmap string (list string)).

(** [func (v Values) Set(key, value string) { v[key] = []string{value} }] *)
Definition Set_ (v : Values) (key value : string) : Values :=
  <[key := [value]]> v.

(** [*url.Userinfo]: a user name and an optional password. *)
Record Userinfo := mkUserinfo {
  Username : string;
  password : option string
}.

(** [func (u *Userinfo) Password() (string, bool)] *)
Definition Password (u : Userinfo) : string * bool :=
  match password u with
  | Some p => (p, true)
  | None => ("", false)
  end.

End url.

Module http.

(** [http.Header], a [map[string][]string].  The keys [Do] uses are
    already in canonical form, so canonicalisation is the identity on
    them and is left out. *)
Abbreviation Header := (gmap string (list string)).

Definition Add (h : Header) (key value : string) : Header :=
  <[key := (default [] (h !! key) ++ [value])%list]> h.

Definition Set_ (h : Header) (key value : string) : Header :=
  <[key := [value]]> h.

Definition Get (h : Header) (key : string) : string :=
  match h !! key with
  | Some (v :: _) => v
  | _ => ""
  end.

(** [http.Request]: the outgoing transport message. *)
Record Request := mkRequest {
  Method : string;
  URL : string;
  Hdr : Header;
  Body : option string
}.

Definition setHeader (r : Request) (h : Header) : Request :=
  mkRequest (Method r) (URL r) h (Body r).

(** [http.Response]: the transport's reply.  [BodyRead] is what
    [ioutil.ReadAll] gets out of the body stream: the bytes read and
    the read error, if any; [Request_] is the field [Request]. *)
Record Response := mkResponse {
  StatusCode : Z;
  BodyRead : string * option error;
  Request_ : option Request
}.

(** [*http.Client], through its method [Do]: a pair of a possibly nil
    response and a possibly nil error, as Go returns them. *)
Definition Client := Request -> option Response * option error.

End http.

(** ** What the standard library supplies *)

(** [encoding/json] over the Go values [V], none of which is [nil]:
    encoding of a value; decoding into an object of a declared shape
    (the object as it is left behind, and the error); the value a text
    other than [null] decodes to in an empty [interface{}]; and whether
    a text is the JSON value [null].  The text [null] decodes into an
    object without effect and without error, and there is no value in
    [V] it decodes to. *)
Class JSON (V : Type) := {
  json_encode : V -> string + error;
  json_decode_into : string -> V -> V * option error;
  json_decode_any : string -> V + error;
  json_null : string -> bool;
  json_null_into : forall data o,
    json_null data = true -> json_decode_into data o = (o, None);
  json_null_any : forall data g,
    json_decode_any data = inl g -> json_null data = false
}.

(** [net/url]; the checks [http.NewRequest] makes on the method and on
    the URL string it is called with; the base64 text of
    [user:password]; and, for [runtime.Caller], file and line of the
    function that called [Do]. *)
Class Lib := {
  url_Parse : string -> url.URL + error;
  url_ParseQuery : string -> url.Values;
  url_Encode : url.Values -> string;
  url_String : url.URL -> string;
  http_check : string -> string -> option error;
  http_basicAuth : string -> string -> string;
  caller_of_Do : option (string * Z)
}.

(** [func (u *URL) Query() Values] *)
Definition Query `{Lib} (u : url.URL) : url.Values :=
  url_ParseQuery (url.RawQuery u).

(** [http.NewRequest]: a fresh message with an empty header map, or
    [nil] and an error.  An empty method stands for [GET]. *)
Definition NewRequest `{Lib} (method urlStr : string)
    (body : option string) : option http.Request * option error :=
  match http_check method urlStr with
  | Some e => (None, Some e)
  | None =>
      (Some (http.mkRequest (if decide (method = "") then "GET" else method)
               urlStr ∅ body), None)
  end.

(** [func (r *Request) SetBasicAuth(username, password string)] *)
Definition SetBasicAuth `{Lib} (r : http.Request)
    (username pwd : string) : http.Request :=
  http.setHeader r
    (http.Set_ (http.Hdr r) "Authorization"
       ("Basic " +:+ http_basicAuth username pwd)).

(** [strconv.Itoa] *)
Definition Itoa (n : Z) : string := pretty n.

Definition LF : string := String "010"%char "".
Definition TAB : string := String "009"%char "".

(** ** Program state *)

(** What [log.Println] is handed. *)
Inductive logarg (V : Type) :=
| LStr (s : string)
| LErr (e : error)
| LInt (n : Z)
| LResponse (status : Z) (result err : any V) (rawtext : string)
| LHttpResponse (r : http.Response)
| LHttpRequest (r : option http.Request).
Arguments LStr {V} s.
Arguments LErr {V} e.
Arguments LInt {V} n.
Arguments LResponse {V} status result err rawtext.
Arguments LHttpResponse {V} r.
Arguments LHttpRequest {V} r.

(** The calls [Do] makes to the outside, in the order it makes them. *)
Inductive event (V : Type) :=
| EvLog (args : list (logarg V))
| EvMarshal (x : any V)
| EvSend (m : http.Request)
| EvReadAll (r : http.Response)
| EvUnmarshal (data : string) (v : nat).
Arguments EvLog {V} args.
Arguments EvMarshal {V} x.
Arguments EvSend {V} m.
Arguments EvReadAll {V} r.
Arguments EvUnmarshal {V} data v.

(** Memory and history: the objects of the caller that interface
    values point to, by address; the [interface{}] cells a
    [*interface{}] can point to ([&resp.Result], [&resp.Error],
    [new(interface{})]), by index; the events so far, oldest first.
    Only the cell a [*interface{}] points to and the object that cell
    points to are written by a decode.  The descriptor is no part of
    the memory: a function that writes to it returns the new one. *)
Record State (V : Type) := mkState {
  objs : gmap addr V;
  cells : list (any V);
  trace : list (event V)
}.
Arguments mkState {V} objs cells trace.
Arguments objs {V} s.
Arguments cells {V} s.
Arguments trace {V} s.

(** A Go function either returns or panics. *)
Inductive outcome (V A : Type) :=
| Ret (a : A) (s : State V)
| Panic (s : State V).
Arguments Ret {V A} a s.
Arguments Panic {V A} s.

Definition M (V A : Type) : Type := State V -> outcome V A.

Definition ret {V A} (a : A) : M V A := fun s => Ret a s.

Definition bind {V A B} (m : M V A) (k : A -> M V B) : M V B :=
  fun s => match m s with
           | Ret a s' => k a s'
           | Panic s' => Panic s'
           end.

Definition panic {V A} : M V A := fun s => Panic s.

Notation "x <- m ;; k" := (bind m (fun x => k))
  (at level 100, m at next level, right associativity,
   format "'[v' x  <-  m  ;;  '/' k ']'").
Notation "m ;;; k" := (bind m (fun _ => k))
  (at level 100, right associativity).

Section Memory.
Context {V : Type}.

Definition emit (e : event V) : M V unit :=
  fun s => Ret tt (mkState (objs s) (cells s) (trace s ++ [e])).

(** [log.Println(args...)] *)
Definition Println (args : list (logarg V)) : M V unit := emit (EvLog args).

(** A fresh [interface{}] cell holding [x]; its address. *)
Definition alloc (x : any V) : M V nat :=
  fun s => Ret (length (cells s))
               (mkState (objs s) (cells s ++ [x]) (trace s)).

(** [*v] for a [*interface{}]; dereferencing what is not a cell panics. *)
Definition load (v : nat) : M V (any V) :=
  fun s => match cells s !! v with
           | Some x => Ret x s
           | None => Panic s
           end.

End Memory.

(** ** encoding/json on this memory *)

Section Json.
Context {V : Type} `{!JSON V}.

(** What [json.Marshal(x)] returns: a pointer is followed to its
    object; [nil] encodes as [null]. *)
Definition encode_any (h : gmap addr V) (x : any V) : string + error :=
  match x with
  | Nil => inl "null"
  | Val v => json_encode v
  | Ptr p => match h !! p with
             | Some o => json_encode o
             | None => inl "null"
             end
  end.

Definition json_Marshal (x : any V) : M V (string + error) :=
  emit (EvMarshal x) ;;;
  fun s => Ret (encode_any (objs s) x) s.

(** Decoding into an [interface{}] that holds no object to fill: the
    interface receives the generic value; on a malformed text it is
    left as it is. *)
Definition decode_generic (data : string) (x : any V) (h : gmap addr V)
    : any V * gmap addr V * option error :=
  match json_decode_any data with
  | inl g => (Val g, h, None)
  | inr e => (x, h, Some e)
  end.

(** What [json.Unmarshal(data, v)] does to the [interface{}] [x] that
    [v] points to and to the objects [h].  The text [null] sets the
    interface itself to [nil], whatever it holds, and touches no
    object.  For any other text: when [x] holds a pointer to an object,
    the object is decoded into, in place; otherwise [x] itself receives
    a generic value. *)
Definition decode (data : string) (x : any V) (h : gmap addr V)
    : any V * gmap addr V * option error :=
  if json_null data then (Nil, h, None)
  else
    match x with
    | Ptr p =>
        match h !! p with
        | Some o =>
            let '(o', e) := json_decode_into data o in
            (x, <[p := o']> h, e)
        | None => decode_generic data x h
        end
    | _ => decode_generic data x h
    end.

(** [json.Unmarshal(data, v)] for [v] a [*interface{}]. *)
Definition json_Unmarshal (data : string) (v : nat) : M V (option error) :=
  emit (EvUnmarshal data v) ;;;
  fun s =>
    match cells s !! v with
    | None => Ret (Some "json: Unmarshal(nil)") s
    | Some x =>
        let '(x', h', e) := decode data x (objs s) in
        Ret e (mkState h' (<[v := x']> (cells s)) (trace s))
    end.

End Json.

(** ** Observing a run *)

Definition final {V A} (r : outcome V A) : State V :=
  match r with
  | Ret _ s => s
  | Panic s => s
  end.

(** The events a computation adds when started in [s]. *)
Definition events {V A} (m : M V A) (s : State V) : list (event V) :=
  drop (length (trace s)) (trace (final (m s))).

(** The computation hands [hReq] to the transport. *)
Definition sends {V A} (m : M V A) (s : State V) (hReq : http.Request)
    : Prop :=
  EvSend hReq ∈ events m s.

Definition is_decode {V} (e : event V) : bool :=
  match e with EvUnmarshal _ _ => true | _ => false end.

Definition is_read {V} (e : event V) : bool :=
  match e with EvReadAll _ => true | _ => false end.

Definition is_log {V} (e : event V) : bool :=
  match e with EvLog _ => true | _ => false end.

(** Events of the stage that creates the message. *)
Definition prep {V} (ev : event V) : Prop :=
  match ev with
  | EvLog _ | EvMarshal _ => True
  | _ => False
  end.

(** Events that may follow the hand-over to the transport. *)
Definition after_send {V} (ev : event V) : Prop :=
  match ev with
  | EvSend _ | EvMarshal _ => False
  | _ => True
  end.

(** Events that may follow the reading of the body. *)
Definition quiet {V} (ev : event V) : Prop :=
  match ev with
  | EvSend _ | EvReadAll _ | EvMarshal _ => False
  | _ => True
  end.

(** [200 <= status && status < 300] *)
Definition is_success (status : Z) : bool :=
  (200 <=? status) && (status <? 300).

(** ** What the two files share *)

(** [type Method string] and the four verbs. *)
Definition Method := string.
Definition GET : Method := "GET".
Definition PUT : Method := "PUT".
Definition POST : Method := "POST".

(** [type Client struct] *)
Record Client (V : Type) := mkClient {
  HttpClient : http.Client;
  DefaultError : any V
}.
Arguments mkClient {V} HttpClient DefaultError.
Arguments HttpClient {V} c.
Arguments DefaultError {V} c.

(** [func New() *Client]; [transport] stands for [new(http.Client)]. *)
Definition New {V} (transport : http.Client) : Client V :=
  mkClient transport Nil.

(** The loop [for k, v := range req.Params { vals.Set(k, v) }]. *)
Definition rangeSet (vals : url.Values) (params : gmap string string)
    : url.Values :=
  map_fold (fun k v acc => url.Set_ acc k v) vals params.

(** The same loop, visiting the entries in a given order. *)
Definition rangeSet_in (order : list (string * string)) (vals : url.Values)
    : url.Values :=
  foldl (fun acc '(k, v) => url.Set_ acc k v) vals order.

(** The statements under [if req.Method == GET && req.Params != nil]
    included: the URL as it is when the message is created. *)
Definition withParams `{Lib} (method : Method)
    (params : option (gmap string string)) (u : url.URL) : url.URL :=
  match params with
  | Some ps =>
      if decide (method = GET)
      then url.setRawQuery u (url_Encode (rangeSet (Query u) ps))
      else u
  | None => u
  end.

Section Unmarshal.
Context {V : Type} `{!JSON V}.

(** [func (c *Client) unmarshal(data []byte, v interface{}) error].
    The assignment [v = new(interface{})] rebinds the parameter: the
    second decode fills a cell nothing else refers to. *)
Definition unmarshal (data : string) (v : nat) : M V (option error) :=
  err <- json_Unmarshal data v ;;
  match err with
  | None => ret None
  | Some _ =>
      v' <- alloc Nil ;;
      json_Unmarshal data v'
  end.

End Unmarshal.

(** ** src/unnamed/part_000 *)

Module Part000.

Module Request.
Record t (V : Type) := mk {
  Url : string;
  Method : Method;
  Userinfo : option url.Userinfo;
  Params : option (gmap string string);
  Headers : option http.Header;
  Data : any V;
  Result : any V;
  Error : any V
}.
Arguments mk {V} Url Method Userinfo Params Headers Data Result Error.
Arguments Url {V} t.
Arguments Method {V} t.
Arguments Userinfo {V} t.
Arguments Params {V} t.
Arguments Headers {V} t.
Arguments Data {V} t.
Arguments Result {V} t.
Arguments Error {V} t.

(** [req.Error = e] *)
Definition setError {V} (req : t V) (e : any V) : t V :=
  mk (Url req) (Method req) (Userinfo req) (Params req) (Headers req)
     (Data req) (Result req) e.

(** [req.Headers = h] *)
Definition setHeaders {V} (req : t V) (h : option http.Header) : t V :=
  mk (Url req) (Method req) (Userinfo req) (Params req) h
     (Data req) (Result req) (Error req).
End Request.

Module Response.
(** The [Response] as the caller finds it when [Do] returns.  [Request]
    is the back-reference, [None] for a nil pointer. *)
Record t (V : Type) := mk {
  Status : Z;
  Timestamp : Time;
  Result : any V;
  Error : any V;
  RawText : string;
  Request : option (Request.t V)
}.
Arguments mk {V} Status Timestamp Result Error RawText Request.
Arguments Status {V} t.
Arguments Timestamp {V} t.
Arguments Result {V} t.
Arguments Error {V} t.
Arguments RawText {V} t.
Arguments Request {V} t.
End Response.

Section Do.
Context {V : Type} `{!JSON V} `{!Lib}.

(** What [Do] returns: a [*Response] and an [error]. *)
Definition result : Type := option (Response.t V) * option error.

(** [func complain(err error, status int, rawtext string)] *)
Definition complain (err : error) (status : Z) (rawtext : string)
    : M V unit :=
  let '(file, line) :=
    match caller_of_Do with
    | Some fl => fl
    | None => ("???", 0)
    end in
  let lineNo := Itoa line in
  let s := "Error executing REST request:" +:+ LF in
  let s := s +:+ "    --> Called from " +:+ file +:+ ":" +:+ lineNo +:+ LF in
  let s := s +:+ "    --> Got status " +:+ Itoa status +:+ LF in
  let s := if decide (rawtext = "") then s
           else s +:+ "    --> Raw text of server response: "
                  +:+ rawtext +:+ LF in
  let s := s +:+ "    --> " +:+ err in
  Println [LStr s].

(** Lines 67-69: the descriptor, as [Do] leaves it behind for the
    caller on every path. *)
Definition defaults (c : Client V) (req : Request.t V) : Request.t V :=
  if is_nil (Request.Error req)
  then Request.setError req (DefaultError c)
  else req.

(** Lines 74-125: the message handed to the transport, or what [Do]
    returns before it gets there. *)
Definition build (req : Request.t V) : M V (http.Request + result) :=
  match url_Parse (Request.Url req) with
  | inr err => Println [LErr err] ;;; ret (inr (None, Some err))
  | inl u =>
      let u := withParams (Request.Method req) (Request.Params req) u in
      let m : string := Request.Method req in
      r <- (if is_nil (Request.Data req)
            then ret (inl (NewRequest m (url_String u) None))
            else
              b <- json_Marshal (Request.Data req) ;;
              match b with
              | inr err => Println [LErr err] ;;; ret (inr (None, Some err))
              | inl b =>
                  match NewRequest m (url_String u) (Some b) with
                  | (Some hReq, err) =>
                      ret (inl (Some (http.setHeader hReq
                                  (http.Add (http.Hdr hReq) "Content-Type"
                                     "application/json")), err))
                  | (None, _) => panic
                  end
              end) ;;
      match r with
      | inr out => ret (inr out)
      | inl (_, Some err) => Println [LErr err] ;;; ret (inr (None, Some err))
      | inl (None, None) => panic
      | inl (Some hReq, None) =>
          let hReq :=
            if decide (http.Get (http.Hdr hReq) "Accept" = "")
            then http.setHeader hReq
                   (http.Add (http.Hdr hReq) "Accept" "application/json")
            else hReq in
          let hReq :=
            match Request.Userinfo req with
            | Some ui =>
                let '(pwd, _) := url.Password ui in
                SetBasicAuth hReq (url.Username ui) pwd
            | None => hReq
            end in
          ret (inl hReq)
      end
  end.

(** The [Response] behind [resp], read when [Do] returns. *)
Definition snapshot (status : Z) (rawtext : string) (pR pE : nat)
    : M V (Response.t V) :=
  r <- load pR ;;
  e <- load pE ;;
  ret (Response.mk status zeroTime r e rawtext None).

(** Lines 134-162: from the reply to the returned pair. *)
Definition resolve (req : Request.t V) (hResp : http.Response)
    : M V result :=
  let status := http.StatusCode hResp in
  pR <- alloc (Request.Result req) ;;
  pE <- alloc (Request.Error req) ;;
  emit (EvReadAll hResp) ;;;
  let '(data, err) := http.BodyRead hResp in
  match err with
  | Some err =>
      complain err status data ;;;
      resp <- snapshot status "" pR pE ;;
      ret (Some resp, Some err)
  | None =>
      let rawtext := data in
      if decide (rawtext = "")
      then resp <- snapshot status rawtext pR pE ;;
           ret (Some resp, None)
      else
        err <- (if is_success status
                then unmarshal data pR
                else unmarshal data pE) ;;
        match err with
        | Some e =>
            Println [LInt status] ;;;
            Println [LErr e] ;;;
            Println [LStr rawtext] ;;;
            Println [LHttpResponse hResp] ;;;
            Println [LHttpRequest (http.Request_ hResp)]
        | None => ret tt
        end ;;;
        resp <- snapshot status rawtext pR pE ;;
        ret (Some resp, err)
  end.

(** Lines 129-133, then [resolve]. *)
Definition exchange (c : Client V) (req : Request.t V)
    (hReq : http.Request) : M V result :=
  emit (EvSend hReq) ;;;
  let '(hResp, err) := HttpClient c hReq in
  match err with
  | Some err =>
      match hResp with
      | Some hResp =>
          complain err (http.StatusCode hResp) "" ;;;
          ret (None, Some err)
      | None => panic
      end
  | None =>
      match hResp with
      | Some hResp => resolve req hResp
      | None => panic
      end
  end.

(** [func (c *Client) Do(req *Request)].  [Do] is given a pointer to
    the descriptor and writes through it once, at lines 67-69:
    [defaults c req] is the descriptor after that write, the one the
    caller is left with, and the rest of [Do] only reads it.  The state
    holds the objects that interface values point to, not the
    descriptor. *)
Definition Client_Do (c : Client V) (req : Request.t V) : M V result :=
  let req := defaults c req in
  x <- build req ;;
  match x with
  | inr out => ret out
  | inl hReq => exchange c req hReq
  end.

(** [func Do(r *Request)], on [defaultClient]. *)
Definition Do (transport : http.Client) (r : Request.t V) : M V result :=
  Client_Do (New transport) r.

End Do.

End Part000.

(** ** src/restclient.go *)

Module Restclient.

Module Request.
Record t (V : Type) := mk {
  Url : string;
  Method : Method;
  Params : option (gmap string string);
  Headers : option http.Header;
  Data : any V;
  Result : any V;
  Error : any V
}.
Arguments mk {V} Url Method Params Headers Data Result Error.
Arguments Url {V} t.
Arguments Method {V} t.
Arguments Params {V} t.
Arguments Headers {V} t.
Arguments Data {V} t.
Arguments Result {V} t.
Arguments Error {V} t.

(** [req.Headers = h] *)
Definition setHeaders {V} (req : t V) (h : option http.Header) : t V :=
  mk (Url req) (Method req) (Params req) h (Data req) (Result req) (Error req).
End Request.

Module Response.
(** The [Response] as the caller finds it when [Do] returns. *)
Record t (V : Type) := mk {
  Request : option (Request.t V);
  Status : Z;
  Result : any V;
  Error : any V;
  RawText : string
}.
Arguments mk {V} Request Status Result Error RawText.
Arguments Request {V} t.
Arguments Status {V} t.
Arguments Result {V} t.
Arguments Error {V} t.
Arguments RawText {V} t.
End Response.

Section Do.
Context {V : Type} `{!JSON V} `{!Lib}.

Definition result : Type := option (Response.t V) * option error.

(** The [Response] behind [resp], read when [Do] returns. *)
Definition snapshot (req : Request.t V) (status : Z) (rawtext : string)
    (pR pE : nat) : M V (Response.t V) :=
  r <- load pR ;;
  e <- load pE ;;
  ret (Response.mk (Some req) status r e rawtext).

(** [return resp, err] while [Status] and [RawText] are still unset. *)
Definition fail (req : Request.t V) (pR pE : nat) (err : error)
    : M V result :=
  resp <- snapshot req 0 "" pR pE ;;
  ret (Some resp, Some err).

(** Lines 69-113: the message handed to the transport, or what [Do]
    returns before it gets there. *)
Definition build (req : Request.t V) (pR pE : nat)
    : M V (http.Request + result) :=
  match url_Parse (Request.Url req) with
  | inr err => Println [LErr err] ;;; out <- fail req pR pE err ;; ret (inr out)
  | inl u =>
      let u := withParams (Request.Method req) (Request.Params req) u in
      let m : string := Request.Method req in
      r <- (if is_nil (Request.Data req)
            then ret (inl (NewRequest m (url_String u) None))
            else
              b <- json_Marshal (Request.Data req) ;;
              match b with
              | inr err =>
                  Println [LErr err] ;;;
                  out <- fail req pR pE err ;; ret (inr out)
              | inl b =>
                  match NewRequest m (url_String u) (Some b) with
                  | (Some hReq, err) =>
                      ret (inl (Some (http.setHeader hReq
                                  (http.Add (http.Hdr hReq) "Content-Type"
                                     "application/json")), err))
                  | (None, _) => panic
                  end
              end) ;;
      match r with
      | inr out => ret (inr out)
      | inl (_, Some err) =>
          Println [LErr err] ;;; out <- fail req pR pE err ;; ret (inr out)
      | inl (None, None) => panic
      | inl (Some hReq, None) =>
          let hReq :=
            if decide (http.Get (http.Hdr hReq) "Accept" = "")
            then http.setHeader hReq
                   (http.Add (http.Hdr hReq) "Accept" "application/json")
            else hReq in
          ret (inl hReq)
      end
  end.

(** Lines 131-152: from the reply to the returned pair. *)
Definition resolve (req : Request.t V) (pR pE : nat)
    (hResp : http.Response) : M V result :=
  let status := http.StatusCode hResp in
  emit (EvReadAll hResp) ;;;
  let '(data, err) := http.BodyRead hResp in
  match err with
  | Some err =>
      Println [LErr err] ;;;
      resp <- snapshot req status "" pR pE ;;
      ret (Some resp, Some err)
  | None =>
      let rawtext := data in
      if decide (rawtext = "")
      then resp <- snapshot req status rawtext pR pE ;;
           ret (Some resp, None)
      else
        err <- (if is_success status
                then unmarshal data pR
                else unmarshal data pE) ;;
        match err with
        | Some e =>
            resp <- snapshot req status rawtext pR pE ;;
            Println [LResponse (Response.Status resp) (Response.Result resp)
                       (Response.Error resp) (Response.RawText resp)] ;;;
            Println [LErr e]
        | None => ret tt
        end ;;;
        resp <- snapshot req status rawtext pR pE ;;
        ret (Some resp, err)
  end.

(** Lines 117-130, then [resolve]. *)
Definition exchange (c : Client V) (req : Request.t V) (pR pE : nat)
    (hReq : http.Request) : M V result :=
  emit (EvSend hReq) ;;;
  let '(hResp, err) := HttpClient c hReq in
  match err with
  | Some err =>
      let '(file, line) :=
        match caller_of_Do with
        | Some fl => fl
        | None => ("???", 0)
        end in
      let lineNo := Itoa line in
      let s := "Error executing REST request:" +:+ LF in
      let s := s +:+ TAB +:+ " Called from " +:+ file +:+ ":"
                 +:+ lineNo +:+ LF in
      let s := s +:+ TAB +:+ " " in
      Println [LStr s; LErr err] ;;;
      fail req pR pE err
  | None =>
      match hResp with
      | Some hResp => resolve req pR pE hResp
      | None => panic
      end
  end.

(** [func (c *Client) Do(req *Request)] *)
Definition Client_Do (c : Client V) (req : Request.t V) : M V result :=
  pR <- alloc (Request.Result req) ;;
  pE <- alloc (Request.Error req) ;;
  x <- build req pR pE ;;
  match x with
  | inr out => ret out
  | inl hReq => exchange c req pR pE hReq
  end.

End Do.

End Restclient.

(** ** A small world to run the model in

    Used by the examples only: JSON restricted to [null], booleans and
    integers; URLs of the form [path?k=v&k=v] over plain characters. *)

Module World.

(** Go values: a JSON scalar, which is also the shape of the object
    that is to receive one. *)
Inductive jv := JNull | JBool (b : bool) | JNum (n : Z).

Definition is_digit (c : ascii) : bool :=
  (48 <=? nat_of_ascii c)%nat && (nat_of_ascii c <=? 57)%nat.

Fixpoint parse_digits (acc : Z) (s : string) : option Z :=
  match s with
  | EmptyString => Some acc
  | String c s' =>
      if is_digit c
      then parse_digits (10 * acc + Z.of_nat (nat_of_ascii c - 48)) s'
      else None
  end.

Definition parse_number (s : string) : option Z :=
  match s with
  | EmptyString => None
  | String "-" EmptyString => None
  | String "-" s' => Z.opp <$> parse_digits 0 s'
  | _ => parse_digits 0 s
  end.

Definition parse (s : string) : jv + error :=
  if decide (s = "null") then inl JNull
  else if decide (s = "true") then inl (JBool true)
  else if decide (s = "false") then inl (JBool false)
  else match parse_number s with
       | Some n => inl (JNum n)
       | None => inr "invalid character looking for beginning of value"
       end.

Definition print (v : jv) : string :=
  match v with
  | JNull => "null"
  | JBool true => "true"
  | JBool false => "false"
  | JNum n => pretty n
  end.

(** Decoding into an object keeps its shape: a value of another shape
    is refused and the object left as it was; [null] is a no-op. *)
Definition decode_into (data : string) (o : jv) : jv * option error :=
  match parse data with
  | inr e => (o, Some e)
  | inl JNull => (o, None)
  | inl (JBool b) =>
      match o with
      | JBool _ => (JBool b, None)
      | _ => (o, Some "json: cannot unmarshal bool into Go value")
      end
  | inl (JNum n) =>
      match o with
      | JNum _ => (JNum n, None)
      | _ => (o, Some "json: cannot unmarshal number into Go value")
      end
  end.

Definition is_null (data : string) : bool := bool_decide (data = "null").

(** The value a text other than [null] stands for. *)
Definition parse_value (data : string) : jv + error :=
  if is_null data then inr "null stands for no value" else parse data.

#[export] Instance json : JSON jv.
Proof.
  refine {|
    json_encode v := inl (print v);
    json_decode_into := decode_into;
    json_decode_any := parse_value;
    json_null := is_null
  |}.
  - intros data o Hn. apply bool_decide_eq_true in Hn. by subst data.
  - intros data g. unfold parse_value. by destruct (is_null data).
Defined.

Fixpoint split_go (sep : ascii) (cur : string) (s : string) : list string :=
  match s with
  | EmptyString => [String.rev cur]
  | String c s' =>
      if Ascii.eqb c sep
      then String.rev cur :: split_go sep "" s'
      else split_go sep (String c cur) s'
  end.

Definition split (sep : ascii) (s : string) : list string :=
  split_go sep "" s.

Fixpoint has_char (c : ascii) (s : string) : bool :=
  match s with
  | EmptyString => false
  | String c' s' => Ascii.eqb c c' || has_char c s'
  end.

Definition parse_url (s : string) : url.URL + error :=
  if has_char " " s then inr "parse: invalid character in URL"
  else match split "?" s with
       | [] => inl (url.mkURL "" "" "" "" "" "")
       | p :: qs => inl (url.mkURL "" "" "" p (String.concat "?" qs) "")
       end.

Definition parse_pair (kv : string) : string * string :=
  match split "=" kv with
  | [] => ("", "")
  | k :: vs => (k, String.concat "=" vs)
  end.

Definition parse_query (q : string) : url.Values :=
  foldl (fun (m : url.Values) kv =>
           if decide (kv = "") then m
           else let '(k, v) := parse_pair kv in
                <[k := (default [] (m !! k) ++ [v])%list]> m)
        ∅ (split "&" q).

Definition key_le (a b : string * list string) : Prop :=
  String.leb a.1 b.1 = true.

#[local] Instance key_le_dec a b : Decision (key_le a b).
Proof. unfold key_le. apply _. Defined.

Definition encode (vals : url.Values) : string :=
  String.concat "&"
    (flat_map (fun '(k, vs) => (fun v => k +:+ "=" +:+ v) <$> vs)
       (merge_sort key_le (map_to_list vals))).

Definition url_string (u : url.URL) : string :=
  url.Path u +:+
  (if decide (url.RawQuery u = "") then "" else "?" +:+ url.RawQuery u).

#[export] Instance lib : Lib := {|
  url_Parse := parse_url;
  url_ParseQuery := parse_query;
  url_Encode := encode;
  url_String := url_string;
  http_check method _ :=
    if has_char " " method then Some "net/http: invalid method" else None;
  http_basicAuth u p := u +:+ ":" +:+ p;
  caller_of_Do := Some ("main.go", 42)
|}.

(** Transports: one that answers every message with a status and a
    body, one that cannot connect, one that gives up on a redirect and
    hands back the last response with the error. *)
Definition reply (status : Z) (body : string) : http.Client :=
  fun m => (Some (http.mkResponse status (body, None) (Some m)), None).

Definition refused : http.Client :=
  fun _ => (None, Some "dial tcp: connection refused").

Definition redirect_stopped : http.Client :=
  fun m => (Some (http.mkResponse 302 ("", None) (Some m)),
            Some "stopped after 10 redirects").

(** A memory with two integer objects of the caller, and pointers to
    them. *)
Definition mem : State jv :=
  mkState {[1%positive := JNum 0; 2%positive := JNum 0]} [] [].

Definition p1 : any jv := Ptr 1%positive.
Definition p2 : any jv := Ptr 2%positive.

(** Descriptors for [part_000] and for [restclient.go]. *)
Definition get_items (result err : any jv) : Part000.Request.t jv :=
  Part000.Request.mk "http://api.test/items?q=hats&page=2" GET None
    (Some {["q" := "shoes"]}) None Nil result err.

Definition post_item (method : Method) : Part000.Request.t jv :=
  Part000.Request.mk "http://api.test/items" method None
    (Some {["q" := "shoes"]}) None (Val (JNum 7)) p1 p2.

Definition get_items_legacy (result err : any jv)
    : Restclient.Request.t jv :=
  Restclient.Request.mk "http://api.test/items?q=hats&page=2" GET
    (Some {["q" := "shoes"]}) None Nil result err.

Definition post_item_legacy (method : Method) : Restclient.Request.t jv :=
  Restclient.Request.mk "http://api.test/items" method
    (Some {["q" := "shoes"]}) None (Val (JNum 7)) p1 p2.

(** The messages these descriptors lead to. *)
Definition get_items_msg : http.Request :=
  http.mkRequest "GET" "http://api.test/items?page=2&q=shoes"
    {["Accept" := ["application/json"]]} None.

Definition post_item_msg : http.Request :=
  http.mkRequest "POST" "http://api.test/items"
    {["Accept" := ["application/json"];
      "Content-Type" := ["application/json"]]} (Some "7").

End World.

(** ** More ways to look at a run *)

Definition is_send {V} (e : event V) : bool :=
  match e with EvSend _ => true | _ => false end.

(** The five calls of [log.Println] at lines 156-160 of [part_000]. *)
Definition decode_log {V} (status : Z) (e2 : error) (data : string)
    (hResp : http.Response) : list (event V) :=
  [EvLog [LInt status]; EvLog [LErr e2]; EvLog [LStr data];
   EvLog [LHttpResponse hResp]; EvLog [LHttpRequest (http.Request_ hResp)]].

(** ** More of the small world *)

(** Numbers with a value [json.Marshal] refuses: encoding [NaN] fails,
    as it does for a Go [float64]. *)
Module Floats.

Inductive num := Fin (n : Z) | NaN.

Definition encode_num (v : num) : string + error :=
  match v with
  | Fin n => inl (pretty n)
  | NaN => inr "json: unsupported value: NaN"
  end.

Definition decode_num (data : string) : num + error :=
  match World.parse_number data with
  | Some n => inl (Fin n)
  | None => inr "invalid character looking for beginning of value"
  end.

Definition decode_into_num (data : string) (o : num) : num * option error :=
  if World.is_null data then (o, None)
  else match decode_num data with
       | inl v => (v, None)
       | inr e => (o, Some e)
       end.

#[export] Instance json : JSON num.
Proof.
  refine {|
    json_encode := encode_num;
    json_decode_into := decode_into_num;
    json_decode_any := decode_num;
    json_null := World.is_null
  |}.
  - intros data o Hn. unfold decode_into_num. by rewrite Hn.
  - intros data g. destruct (World.is_null data) eqn:Hn; [|done].
    apply bool_decide_eq_true in Hn. by subst data.
Defined.

(** A descriptor whose payload is [NaN]. *)
Definition post_nan : Part000.Request.t num :=
  Part000.Request.mk "http://api.test/items" POST None None None
    (Val NaN) Nil Nil.

Definition post_nan_legacy : Restclient.Request.t num :=
  Restclient.Request.mk "http://api.test/items" POST None None
    (Val NaN) Nil Nil.

Definition empty : State num := mkState ∅ [] [].

End Floats.

Module Cases.

(** A transport whose body breaks off after three bytes. *)
Definition truncated : http.Client :=
  fun m => (Some (http.mkResponse 200 ("tru", Some "unexpected EOF")
                    (Some m)), None).


(** Descriptors: a raw URL with a blank in it; a method with a blank in
    it and no payload; no method at all, with the message it leads to;
    a user without password; a DELETE. *)
Definition bad_url : Part000.Request.t World.jv :=
  Part000.Request.mk "http://api test/items" GET None None None
    Nil World.p1 World.p2.

Definition bad_url_legacy : Restclient.Request.t World.jv :=
  Restclient.Request.mk "http://api test/items" GET None None
    Nil World.p1 World.p2.

Definition bad_method : Part000.Request.t World.jv :=
  Part000.Request.mk "http://api.test/items" "BAD METHOD" None None None
    Nil World.p1 World.p2.

Definition bad_method_legacy : Restclient.Request.t World.jv :=
  Restclient.Request.mk "http://api.test/items" "BAD METHOD" None None
    Nil World.p1 World.p2.

Definition no_method : Part000.Request.t World.jv :=
  Part000.Request.mk "http://api.test/items" "" None None None
    Nil World.p1 World.p2.

Definition no_method_legacy : Restclient.Request.t World.jv :=
  Restclient.Request.mk "http://api.test/items" "" None None
    Nil World.p1 World.p2.

Definition no_method_msg : http.Request :=
  http.mkRequest "GET" "http://api.test/items"
    {["Accept" := ["application/json"]]} None.

Definition as_ann : Part000.Request.t World.jv :=
  Part000.Request.mk "http://api.test/items" GET
    (Some (url.mkUserinfo "ann" None)) None None Nil World.p1 World.p2.

Definition as_ann_msg : http.Request :=
  http.mkRequest "GET" "http://api.test/items"
    {["Accept" := ["application/json"];
      "Authorization" := ["Basic ann:"]]} None.



End Cases.

(** * Properties *)

(** ** Memory and decoding *)

Section MemoryFacts.
Context {V : Type} `{!JSON V}.
Implicit Types (s : State V) (x : any V) (h : gmap addr V).

Lemma events_app {A} (m : M V A) s evs :
  trace (final (m s)) = trace s ++ evs -> events m s = evs.
Proof. intros E. unfold events. rewrite E. apply drop_app_length. Qed.

(** The text [null] sets the interface to [nil] and writes no object. *)
Lemma decode_null data x h :
  json_null data = true -> decode data x h = (Nil, h, None).
Proof. intros Hn. unfold decode. by rewrite Hn. Qed.

(** A decode into an object that fails was not given the text [null]. *)
Lemma into_error_not_null data (o o' : V) e :
  json_decode_into data o = (o', Some e) -> json_null data = false.
Proof.
  intros Hd. destruct (json_null data) eqn:Hn; [|reflexivity].
  rewrite (json_null_into data o Hn) in Hd. discriminate.
Qed.

(** A decode that fails was not given the text [null]. *)
Lemma decode_error_not_null data x h x' h' e :
  decode data x h = (x', h', Some e) -> json_null data = false.
Proof. unfold decode. by destruct (json_null data). Qed.


(** Given a text other than [null], an interface holding a pointer
    still holds it after a decode, and its object is decoded into. *)
Lemma decode_ptr data p h o :
  json_null data = false ->
  h !! p = Some o ->
  decode data (Ptr p) h =
    (Ptr p, <[p := (json_decode_into data o).1]> h,
     (json_decode_into data o).2).
Proof.
  intros Hn E. unfold decode. rewrite Hn, E.
  destruct (json_decode_into data o); reflexivity.
Qed.


(** Given a text other than [null], the decode of an interface that
    holds no pointer to an object is the generic one, and leaves the
    objects alone. *)
Lemma decode_other data x h :
  json_null data = false ->
  (forall p, x = Ptr p -> h !! p = None) ->
  decode data x h =
    match json_decode_any data with
    | inl g => (Val g, h, None)
    | inr e => (x, h, Some e)
    end.
Proof.
  intros Hn Hx. unfold decode. rewrite Hn.
  destruct x as [|p|v]; try reflexivity.
  by rewrite (Hx p eq_refl).
Qed.


(** [unmarshal] on a cell holding [x]: the first decode is applied to
    the cell; when it fails, a second, generic decode goes to a cell
    appended to the memory, and its error is the one returned. *)
Lemma unmarshal_run data v s x :
  cells s !! v = Some x ->
  let '(x', h', e) := decode data x (objs s) in
  unmarshal data v s =
    match e with
    | None =>
        Ret None (mkState h' (<[v := x']> (cells s))
                    (trace s ++ [EvUnmarshal data v]))
    | Some _ =>
        let n := length (cells s) in
        match json_decode_any data with
        | inl g =>
            Ret None (mkState h' (<[v := x']> (cells s) ++ [Val g])
                        (trace s ++ [EvUnmarshal data v; EvUnmarshal data n]))
        | inr e2 =>
            Ret (Some e2) (mkState h' (<[v := x']> (cells s) ++ [Nil])
                        (trace s ++ [EvUnmarshal data v; EvUnmarshal data n]))
        end
    end.
Proof.
  intros Hv.
  destruct (decode data x (objs s)) as [[x' h'] e] eqn:D.
  unfold unmarshal, json_Unmarshal, bind, emit, alloc, ret. simpl.
  rewrite Hv, D.
  destruct e as [e|]; [|reflexivity]. simpl.
  pose proof (decode_error_not_null _ _ _ _ _ _ D) as Hn.
  rewrite length_insert.
  rewrite lookup_app_r by (rewrite length_insert; lia).
  rewrite length_insert, Nat.sub_diag. simpl.
  unfold decode at 1. rewrite Hn. unfold decode_generic.
  destruct (json_decode_any data) as [g|e2]; simpl.
  - rewrite <- app_assoc. simpl. f_equal. f_equal.
    rewrite insert_app_r_alt by (rewrite length_insert; lia).
    rewrite length_insert, Nat.sub_diag. reflexivity.
  - rewrite <- app_assoc. simpl. f_equal. f_equal.
    rewrite insert_app_r_alt by (rewrite length_insert; lia).
    rewrite length_insert, Nat.sub_diag. reflexivity.
Qed.

End MemoryFacts.


(** ** Cells at the end of the memory *)

Section Cells.
Context {A : Type}.
Implicit Types (cs l : list A) (x : A).

Lemma lookup_end0 cs l : (cs ++ l) !! length cs = l !! 0%nat.
Proof. rewrite lookup_app_r by lia. by rewrite Nat.sub_diag. Qed.

Lemma lookup_end1 cs l : (cs ++ l) !! (length cs + 1)%nat = l !! 1%nat.
Proof.
  rewrite lookup_app_r by lia. f_equal. lia.
Qed.

Lemma insert_end0 cs l x :
  <[length cs := x]> (cs ++ l) = cs ++ <[0%nat := x]> l.
Proof. rewrite insert_app_r_alt by lia. by rewrite Nat.sub_diag. Qed.

Lemma insert_end1 cs l x :
  <[(length cs + 1)%nat := x]> (cs ++ l) = cs ++ <[1%nat := x]> l.
Proof.
  rewrite insert_app_r_alt by lia. do 2 f_equal. lia.
Qed.

End Cells.

(** Unfolding the monad. *)
Ltac run :=
  unfold bind, ret, panic, emit, Println, alloc, load; simpl.

(** Bringing a memory that grew at its end into the form [cs ++ l]. *)
Ltac cells :=
  repeat (progress (rewrite ?length_app, <- ?app_assoc; simpl;
                    rewrite ?lookup_end0, ?lookup_end1,
                            ?insert_end0, ?insert_end1; simpl)).

(** ** part_000: the stages of [Do] *)

Section Part000Facts.
Context {V : Type} `{!JSON V} `{!Lib}.
Implicit Types (s : State V) (req : Part000.Request.t V) (c : Client V).

Import Part000.

(** The reply has a body: what [resolve] returns, in terms of the
    decode into the destination the status selects. *)
Lemma resolve_decoded req hResp s data :
  http.BodyRead hResp = (data, None) ->
  data <> "" ->
  let status := http.StatusCode hResp in
  let target := if is_success status
                then Request.Result req else Request.Error req in
  let '(x', h', e) := decode data target (objs s) in
  exists err cs evs,
    resolve req hResp s =
      Ret (Some (Response.mk status zeroTime
                   (if is_success status then x' else Request.Result req)
                   (if is_success status then Request.Error req else x')
                   data None), err)
          (mkState h' cs (trace s ++ EvReadAll hResp :: evs)) /\
    err = match e with
          | None => None
          | Some _ => match json_decode_any data with
                      | inl _ => None
                      | inr e2 => Some e2
                      end
          end /\
    cs = cells s ++
           [if is_success status then x' else Request.Result req;
            if is_success status then Request.Error req else x'] ++
           match e with
           | None => []
           | Some _ => match json_decode_any data with
                       | inl g => [Val g]
                       | inr _ => [Nil]
                       end
           end /\
    (exists n rest, evs = EvUnmarshal data n :: rest) /\
    Forall quiet evs.
Proof.
  intros Hbody Hne status target.
  destruct (decode data target (objs s)) as [[x' h'] e] eqn:D.
  unfold resolve. rewrite Hbody. fold status.
  destruct (decide (data = "")) as [|_]; [contradiction|].
  unfold snapshot. run.
  destruct (is_success status) eqn:S; subst target.
  - pose proof (unmarshal_run data (length (cells s))
      (mkState (objs s)
         ((cells s ++ [Request.Result req]) ++ [Request.Error req])
         (trace s ++ [EvReadAll hResp])) (Request.Result req)) as U.
    simpl in U. revert U. cells. intros U. specialize (U eq_refl).
    rewrite D in U. rewrite U. clear U.
    destruct e as [e|]; [destruct (json_decode_any data) as [g|e2]|];
      simpl; cells;
      eexists _, _, _; (split; [reflexivity|]);
      (split; [reflexivity|]); (split; [reflexivity|]); (split; [eauto|]);
      repeat constructor.
  - pose proof (unmarshal_run data (length (cells s ++ [Request.Result req]))
      (mkState (objs s)
         ((cells s ++ [Request.Result req]) ++ [Request.Error req])
         (trace s ++ [EvReadAll hResp])) (Request.Error req)) as U.
    simpl in U. revert U. cells. intros U. specialize (U eq_refl).
    rewrite D in U. rewrite U. clear U.
    destruct e as [e|]; [destruct (json_decode_any data) as [g|e2]|];
      simpl; cells;
      eexists _, _, _; (split; [reflexivity|]);
      (split; [reflexivity|]); (split; [reflexivity|]); (split; [eauto|]);
      repeat constructor.
Qed.


(** The header map of a message fresh from [http.NewRequest] has no
    [Accept] entry, with or without the [Content-Type] entry. *)
Lemma Accept_unset :
  http.Get (http.Add ∅ "Content-Type" "application/json") "Accept" = "" /\
  http.Get ∅ "Accept" = "".
Proof. split; reflexivity. Qed.

(** [build] touches neither objects nor cells, and only logs and
    encodes. *)
Lemma build_events req s :
  exists evs, Forall prep evs /\
    objs (final (build req s)) = objs s /\
    cells (final (build req s)) = cells s /\
    trace (final (build req s)) = trace s ++ evs.
Proof.
  unfold build, json_Marshal, NewRequest. run.
  destruct (url_Parse (Request.Url req)) as [u|e]; simpl.
  2:{ eexists; split; [|repeat split; reflexivity]. repeat constructor. }
  destruct (is_nil (Request.Data req)); simpl.
  - destruct (http_check _ _); simpl.
    + eexists; split; [|repeat split; reflexivity]. repeat constructor.
    + exists []. split; [constructor|]. rewrite app_nil_r. done.
  - destruct (encode_any _ _) as [b|e]; simpl.
    + destruct (http_check _ _); simpl.
      * eexists; split; [|repeat split; reflexivity]. repeat constructor.
      * eexists; split; [|repeat split; reflexivity]. repeat constructor.
    + rewrite <- app_assoc.
      eexists; split; [|repeat split; reflexivity]. repeat constructor.
Qed.

(** The message [build] hands over. *)
Lemma build_message req s hReq s' :
  build req s = Ret (inl hReq) s' ->
  exists u,
    url_Parse (Request.Url req) = inl u /\
    http.Method hReq =
      (if decide (Request.Method req = "") then "GET"
       else Request.Method req) /\
    http.URL hReq =
      url_String (withParams (Request.Method req) (Request.Params req) u) /\
    (if is_nil (Request.Data req)
     then http.Body hReq = None
     else exists b, encode_any (objs s) (Request.Data req) = inl b /\
                    http.Body hReq = Some b) /\
    http.Hdr hReq =
      (let h0 : http.Header :=
         if is_nil (Request.Data req) then ∅
         else {["Content-Type" := ["application/json"]]} in
       let h1 := <["Accept" := ["application/json"]]> h0 in
       match Request.Userinfo req with
       | Some ui =>
           <["Authorization" :=
               ["Basic " +:+ http_basicAuth (url.Username ui)
                               (url.Password ui).1]]> h1
       | None => h1
       end).
Proof.
  unfold build, json_Marshal, NewRequest. run.
  destruct (url_Parse (Request.Url req)) as [u|e]; simpl; [|discriminate].
  destruct (is_nil (Request.Data req)); simpl.
  - destruct (http_check _ _); simpl; [discriminate|].
    rewrite decide_True by reflexivity.
    intros [= <- <-]. exists u.
    destruct (Request.Userinfo req) as [ui|]; simpl;
      [destruct (url.Password ui)|]; repeat split; reflexivity.
  - destruct (encode_any _ _) as [b|e]; simpl; [|discriminate].
    destruct (http_check _ _); simpl; [discriminate|].
    rewrite decide_True by reflexivity.
    intros [= <- <-]. exists u.
    destruct (Request.Userinfo req) as [ui|]; simpl;
      [destruct (url.Password ui)|]; repeat split; eauto.
Qed.


Lemma Do_stages c req s :
  Client_Do c req s =
    match build (defaults c req) s with
    | Ret (inl hReq) s1 => exchange c (defaults c req) hReq s1
    | Ret (inr out) s1 => Ret out s1
    | Panic s1 => Panic s1
    end.
Proof.
  unfold Client_Do, bind.
  destruct (build (defaults c req) s) as [[hReq|out] s1|s1]; reflexivity.
Qed.

Lemma complain_run err status rawtext s :
  exists msg, complain err status rawtext s =
    Ret tt (mkState (objs s) (cells s) (trace s ++ [EvLog [LStr msg]])).
Proof.
  unfold complain.
  destruct caller_of_Do as [[file line]|]; eexists; reflexivity.
Qed.

(** After the body is read, [resolve] only decodes and logs. *)
Lemma resolve_events req hResp s :
  exists evs, Forall quiet evs /\
    trace (final (resolve req hResp s)) = trace s ++ EvReadAll hResp :: evs.
Proof.
  destruct (http.BodyRead hResp) as [data [e|]] eqn:B.
  - unfold resolve, snapshot. rewrite B. run.
    edestruct (complain_run e (http.StatusCode hResp) data) as [msg ->].
    simpl. cells. eexists. split; [|reflexivity]. repeat constructor.
  - destruct (decide (data = "")) as [->|Hne].
    + unfold resolve, snapshot. rewrite B. run. cells.
      exists []. split; [constructor|reflexivity].
    + pose proof (resolve_decoded req hResp s data B Hne) as R. simpl in R.
      destruct (decode _ _ _) as [[x' h'] e].
      destruct R as (err & cs & evs & -> & _ & _ & _ & Q).
      exists evs. split; [assumption|reflexivity].
Qed.

(** [exchange] sends the message first, and sends nothing else. *)
Lemma exchange_events c req hReq s :
  exists evs, Forall after_send evs /\
    trace (final (exchange c req hReq s)) = trace s ++ EvSend hReq :: evs.
Proof.
  unfold exchange. run.
  destruct (HttpClient c hReq) as [[hResp|] [err|]]; simpl.
  - edestruct (complain_run err (http.StatusCode hResp) "") as [msg ->].
    simpl. rewrite <- app_assoc. eexists. split; [|reflexivity].
    repeat constructor.
  - destruct (resolve_events req hResp
                (mkState (objs s) (cells s) (trace s ++ [EvSend hReq])))
      as (evs & Q & ->).
    simpl. rewrite <- app_assoc. eexists. split; [|reflexivity].
    constructor; [exact I|].
    eapply Forall_impl; [exact Q|]. intros [] ?; simpl in *; tauto.
  - exists []. split; [constructor|reflexivity].
  - exists []. split; [constructor|reflexivity].
Qed.

(** [Do] hands to the transport the message [build] returns, and no
    other. *)
Lemma sends_build c req s hReq :
  sends (Client_Do c req) s hReq <->
  exists s1, build (defaults c req) s = Ret (inl hReq) s1.
Proof.
  unfold sends. 
  destruct (build_events (defaults c req) s) as (evs & P & _ & _ & T).
  assert (NS : forall m, EvSend m ∈ evs -> False).
  { intros m Hm. rewrite Forall_forall in P. apply (P _ Hm). }
  split.
  - intros Hin. rewrite (events_app _ _ (
      match build (defaults c req) s with
      | Ret (inl h) s1 =>
          evs ++ drop (length (trace s1))
                   (trace (final (exchange c (defaults c req) h s1)))
      | _ => evs
      end)) in Hin.
    + destruct (build (defaults c req) s) as [[h|out] s1|s1] eqn:B;
        try (exfalso; eapply NS; eassumption).
      destruct (exchange_events c (defaults c req) h s1) as (evs' & A & T').
      rewrite T', drop_app_length in Hin.
      apply elem_of_app in Hin as [Hin|Hin]; [exfalso; eapply NS; eassumption|].
      apply elem_of_cons in Hin as [Hin|Hin].
      * inversion Hin; subst. eauto.
      * rewrite Forall_forall in A. destruct (A _ Hin).
    + rewrite Do_stages.
      destruct (build (defaults c req) s) as [[h|out] s1|s1] eqn:B;
        simpl in T; try exact T.
      destruct (exchange_events c (defaults c req) h s1) as (evs' & A & T').
      rewrite T', drop_app_length, T. by rewrite <- app_assoc.
  - intros [s1 B]. unfold events. rewrite Do_stages, B.
    rewrite B in T. simpl in T.
    destruct (exchange_events c (defaults c req) hReq s1) as (evs' & A & T').
    rewrite T', T, <- app_assoc, drop_app_length.
    apply elem_of_app. right. apply elem_of_cons. by left.
Qed.

End Part000Facts.

(** ** restclient.go: the stages of [Do] *)

Section RestclientFacts.
Context {V : Type} `{!JSON V} `{!Lib}.
Implicit Types (s : State V) (req : Restclient.Request.t V) (c : Client V).
Implicit Types (h : gmap addr V) (cs : list (any V)) (tr : list (event V)).

Import Restclient.

(** Once [resp] is there, the two cells [&resp.Result] and
    [&resp.Error] sit at the end of the memory. *)
Lemma Do_stages_legacy c req s :
  let pR := length (cells s) in
  let pE := (length (cells s) + 1)%nat in
  let s0 := mkState (objs s)
              (cells s ++ [Request.Result req; Request.Error req])
              (trace s) in
  Client_Do c req s =
    match build req pR pE s0 with
    | Ret (inl hReq) s1 => exchange c req pR pE hReq s1
    | Ret (inr out) s1 => Ret out s1
    | Panic s1 => Panic s1
    end.
Proof.
  unfold Client_Do. run. cells.
  destruct (build _ _ _ _) as [[hReq|out] s1|s1]; reflexivity.
Qed.

Lemma fail_run req h cs r e tr err :
  fail req (length cs) (length cs + 1) err (mkState h (cs ++ [r; e]) tr) =
    Ret (Some (Response.mk (Some req) 0 r e ""), Some err)
        (mkState h (cs ++ [r; e]) tr).
Proof. unfold fail, snapshot. run. cells. reflexivity. Qed.

Lemma build_events_legacy req h cs r e tr :
  let out := build req (length cs) (length cs + 1)
               (mkState h (cs ++ [r; e]) tr) in
  exists evs, Forall prep evs /\
    final out = mkState h (cs ++ [r; e]) (tr ++ evs).
Proof.
  intros out. subst out.
  unfold build, json_Marshal, NewRequest.
  destruct (url_Parse (Request.Url req)) as [u|err].
  2:{ unfold Println, emit, bind, ret; simpl. rewrite fail_run. simpl.
      eexists; split; [|reflexivity]. repeat constructor. }
  destruct (is_nil (Request.Data req)).
  - destruct (http_check _ _) as [err|];
      unfold Println, emit, bind, ret; simpl.
    + rewrite fail_run. simpl.
      eexists; split; [|reflexivity]. repeat constructor.
    + exists []. split; [constructor|]. by rewrite app_nil_r.
  - unfold Println, emit, bind, ret, panic; simpl.
    destruct (encode_any _ _) as [b|err]; simpl.
    + destruct (http_check _ _) as [err|]; simpl.
      * eexists; split; [|reflexivity]. repeat constructor.
      * eexists; split; [|reflexivity]. repeat constructor.
    + rewrite fail_run. simpl. rewrite <- app_assoc.
      eexists; split; [|reflexivity]. repeat constructor.
Qed.

(** The message [build] hands over. *)
Lemma build_message_legacy req pR pE s hReq s' :
  build req pR pE s = Ret (inl hReq) s' ->
  exists u,
    url_Parse (Request.Url req) = inl u /\
    http.Method hReq =
      (if decide (Request.Method req = "") then "GET"
       else Request.Method req) /\
    http.URL hReq =
      url_String (withParams (Request.Method req) (Request.Params req) u) /\
    (if is_nil (Request.Data req)
     then http.Body hReq = None
     else exists b, encode_any (objs s) (Request.Data req) = inl b /\
                    http.Body hReq = Some b) /\
    http.Hdr hReq =
      (let h0 : http.Header :=
         if is_nil (Request.Data req) then ∅
         else {["Content-Type" := ["application/json"]]} in
       <["Accept" := ["application/json"]]> h0).
Proof.
  unfold build, json_Marshal, NewRequest, fail, snapshot. run.
  destruct (url_Parse (Request.Url req)) as [u|e]; simpl.
  2:{ repeat (destruct (_ !! _); simpl); discriminate. }
  destruct (is_nil (Request.Data req)); simpl.
  - destruct (http_check _ _); simpl.
    { repeat (destruct (_ !! _); simpl); discriminate. }
    rewrite decide_True by reflexivity.
    intros [= <- <-]. exists u. repeat split; reflexivity.
  - destruct (encode_any _ _) as [b|e]; simpl.
    2:{ repeat (destruct (_ !! _); simpl); discriminate. }
    destruct (http_check _ _); simpl; [discriminate|].
    rewrite decide_True by reflexivity.
    intros [= <- <-]. exists u. repeat split; eauto.
Qed.


(** The reply has a body: what [resolve] returns, in terms of the
    decode into the destination the status selects. *)
Lemma resolve_decoded_legacy req hResp h cs r e tr data :
  http.BodyRead hResp = (data, None) ->
  data <> "" ->
  let status := http.StatusCode hResp in
  let target := if is_success status then r else e in
  let '(x', h', de) := decode data target h in
  exists err cs' evs,
    resolve req (length cs) (length cs + 1) hResp
        (mkState h (cs ++ [r; e]) tr) =
      Ret (Some (Response.mk (Some req) status
                   (if is_success status then x' else r)
                   (if is_success status then e else x')
                   data), err)
          (mkState h' cs' (tr ++ EvReadAll hResp :: evs)) /\
    err = match de with
          | None => None
          | Some _ => match json_decode_any data with
                      | inl _ => None
                      | inr e2 => Some e2
                      end
          end /\
    (exists n rest, evs = EvUnmarshal data n :: rest) /\
    Forall quiet evs.
Proof.
  intros Hbody Hne status target.
  destruct (decode data target h) as [[x' h'] de] eqn:D.
  unfold resolve. rewrite Hbody. fold status.
  destruct (decide (data = "")) as [|_]; [contradiction|].
  unfold snapshot. run.
  destruct (is_success status) eqn:S; subst target.
  - pose proof (unmarshal_run data (length cs)
      (mkState h (cs ++ [r; e]) (tr ++ [EvReadAll hResp])) r) as U.
    simpl in U. revert U. cells. intros U. specialize (U eq_refl).
    rewrite D in U. rewrite U. clear U.
    destruct de as [de|]; [destruct (json_decode_any data) as [g|e2]|];
      simpl; cells;
      eexists _, _, _; (split; [reflexivity|]);
      (split; [reflexivity|]); (split; [eauto|]);
      repeat constructor.
  - pose proof (unmarshal_run data (length cs + 1)
      (mkState h (cs ++ [r; e]) (tr ++ [EvReadAll hResp])) e) as U.
    simpl in U. revert U. cells. intros U. specialize (U eq_refl).
    rewrite D in U. rewrite U. clear U.
    destruct de as [de|]; [destruct (json_decode_any data) as [g|e2]|];
      simpl; cells;
      eexists _, _, _; (split; [reflexivity|]);
      (split; [reflexivity|]); (split; [eauto|]);
      repeat constructor.
Qed.

Lemma resolve_events_legacy req hResp h cs r e tr :
  exists evs, Forall quiet evs /\
    trace (final (resolve req (length cs) (length cs + 1) hResp
                    (mkState h (cs ++ [r; e]) tr))) =
      tr ++ EvReadAll hResp :: evs.
Proof.
  destruct (http.BodyRead hResp) as [data [err|]] eqn:B.
  - unfold resolve, snapshot. rewrite B. run. cells.
    eexists. split; [|reflexivity]. repeat constructor.
  - destruct (decide (data = "")) as [->|Hne].
    + unfold resolve, snapshot. rewrite B. run. cells.
      exists []. split; [constructor|reflexivity].
    + pose proof (resolve_decoded_legacy req hResp h cs r e tr data B Hne) as R.
      simpl in R. destruct (decode _ _ _) as [[x' h'] de].
      destruct R as (err & cs' & evs & -> & _ & _ & Q).
      exists evs. split; [assumption|reflexivity].
Qed.

Lemma exchange_events_legacy c req hReq h cs r e tr :
  exists evs, Forall after_send evs /\
    trace (final (exchange c req (length cs) (length cs + 1) hReq
                    (mkState h (cs ++ [r; e]) tr))) =
      tr ++ EvSend hReq :: evs.
Proof.
  unfold exchange, Println, emit, bind, panic.
  destruct (HttpClient c hReq) as [hResp [err|]]; cbv beta iota.
  - destruct caller_of_Do as [[file line]|]; cbv beta iota zeta;
      unfold objs, cells, trace at 1 2; rewrite fail_run; simpl;
      rewrite <- app_assoc; (eexists; split; [|reflexivity]);
      repeat constructor.
  - simpl. destruct hResp as [hResp|].
    + destruct (resolve_events_legacy req hResp h cs r e (tr ++ [EvSend hReq]))
        as (evs & Q & ->).
      rewrite <- app_assoc. eexists. split; [|reflexivity].
      constructor; [exact I|].
      eapply Forall_impl; [exact Q|]. intros [] ?; simpl in *; tauto.
    + exists []. split; [constructor|reflexivity].
Qed.

(** [Do] hands to the transport the message [build] returns, and no
    other. *)
Lemma sends_build_legacy c req s hReq :
  sends (Client_Do c req) s hReq <->
  exists s1, build req (length (cells s)) (length (cells s) + 1)
               (mkState (objs s)
                  (cells s ++ [Request.Result req; Request.Error req])
                  (trace s)) = Ret (inl hReq) s1.
Proof.
  unfold sends, events. rewrite Do_stages_legacy. simpl.
  destruct (build_events_legacy req (objs s) (cells s) (Request.Result req)
              (Request.Error req) (trace s)) as (evs & P & F).
  simpl in F.
  assert (NS : forall m, EvSend m ∈ evs -> False).
  { intros m Hm. rewrite Forall_forall in P. apply (P _ Hm). }
  destruct (build _ _ _ _) as [[h|out] s1|s1] eqn:B; simpl in F; subst s1.
  - destruct (exchange_events_legacy c req h (objs s) (cells s)
                (Request.Result req) (Request.Error req) (trace s ++ evs))
      as (evs' & A & T').
    rewrite T', <- app_assoc, drop_app_length.
    split.
    + intros Hin.
      apply elem_of_app in Hin as [Hin|Hin]; [exfalso; eapply NS; eassumption|].
      apply elem_of_cons in Hin as [Hin|Hin].
      * inversion Hin; subst. eauto.
      * rewrite Forall_forall in A. destruct (A _ Hin).
    + intros [s1 [= ->]]. apply elem_of_app. right. apply elem_of_cons. by left.
  - simpl. rewrite drop_app_length. split.
    + intros Hin. exfalso; eapply NS; eassumption.
    + intros [s1 [=]].
  - simpl. rewrite drop_app_length. split.
    + intros Hin. exfalso; eapply NS; eassumption.
    + intros [s1 [=]].
Qed.

End RestclientFacts.

(** ** The query-parameter loop *)

Section RangeSet.
Implicit Types (vals : url.Values) (ps : gmap string string).

(** After the loop, every supplied key holds its supplied value alone,
    and every other key holds what it held. *)
Lemma rangeSet_lookup vals ps k :
  rangeSet vals ps !! k =
    match ps !! k with
    | Some v => Some [v]
    | None => vals !! k
    end.
Proof.
  unfold rangeSet.
  apply (map_fold_weak_ind
    (fun (acc : url.Values) (m : gmap string string) =>
       acc !! k = match m !! k with
                  | Some v => Some [v]
                  | None => vals !! k
                  end)).
  - by rewrite lookup_empty.
  - intros i x m acc Hi IH. unfold url.Set_.
    destruct (decide (i = k)) as [->|Hne].
    + by rewrite !lookup_insert_eq.
    + by rewrite !lookup_insert_ne.
Qed.

Lemma rangeSet_in_lookup order vals k :
  NoDup order.*1 ->
  (forall v, (k, v) ∈ order -> rangeSet_in order vals !! k = Some [v]) /\
  (k ∉ order.*1 -> rangeSet_in order vals !! k = vals !! k).
Proof.
  unfold rangeSet_in. revert vals.
  induction order as [|[k0 v0] l IH]; intros vals ND; simpl.
  - split; [intros v Hin; by apply elem_of_nil in Hin|done].
  - apply NoDup_cons in ND as [Hk0 ND].
    destruct (IH (url.Set_ vals k0 v0) ND) as [IHa IHb].
    split.
    + intros v Hin. apply elem_of_cons in Hin as [[= -> ->]|Hin].
      * rewrite IHb by assumption. apply lookup_insert_eq.
      * by apply IHa.
    + intros Hk. apply not_elem_of_cons in Hk as [Hne Hk].
      rewrite IHb by assumption. by apply lookup_insert_ne.
Qed.

(** Go visits the entries of a map in no fixed order: whatever the
    order, the loop ends in the same [Values]. *)
Lemma rangeSet_any_order order vals ps :
  order ≡ₚ map_to_list ps ->
  rangeSet_in order vals = rangeSet vals ps.
Proof.
  intros Hp. apply map_eq. intros k. rewrite rangeSet_lookup.
  assert (ND : NoDup order.*1).
  { rewrite Hp. apply NoDup_fst_map_to_list. }
  destruct (rangeSet_in_lookup order vals k ND) as [Ha Hb].
  destruct (ps !! k) as [v|] eqn:E.
  - apply Ha. rewrite Hp. by apply elem_of_map_to_list.
  - apply Hb. intros Hin. apply list_elem_of_fmap in Hin as [[k' v] [-> Hin]].
    rewrite Hp in Hin. apply elem_of_map_to_list in Hin. simpl in E. congruence.
Qed.

End RangeSet.

(** * The statements of the specification *)

Section Statements.
Context {V : Type} `{!JSON V} `{!Lib}.

Lemma defaults_fields (c : Client V) req :
  Part000.Request.Url (Part000.defaults c req) = Part000.Request.Url req /\
  Part000.Request.Method (Part000.defaults c req)
    = Part000.Request.Method req /\
  Part000.Request.Params (Part000.defaults c req)
    = Part000.Request.Params req /\
  Part000.Request.Data (Part000.defaults c req) = Part000.Request.Data req /\
  Part000.Request.Result (Part000.defaults c req)
    = Part000.Request.Result req /\
  Part000.Request.Userinfo (Part000.defaults c req) =
    Part000.Request.Userinfo req.
Proof.
  unfold Part000.defaults.
  destruct (is_nil (Part000.Request.Error req)); repeat split.
Qed.

(** The URL of the message is the parsed URL of the descriptor, after
    the query-parameter block. *)
Lemma final_url (c : Client V) req s hReq :
  sends (Part000.Client_Do c req) s hReq ->
  exists u, url_Parse (Part000.Request.Url req) = inl u /\
    http.URL hReq =
      url_String (withParams (Part000.Request.Method req)
                    (Part000.Request.Params req) u).
Proof.
  intros Hs. apply sends_build in Hs as [s1 B].
  apply build_message in B as (u & P & _ & U & _).
  destruct (defaults_fields c req) as (E1 & E2 & E3 & _).
  rewrite E1 in P. rewrite E2, E3 in U. eauto.
Qed.

Lemma final_url_legacy (c : Client V) req s hReq :
  sends (Restclient.Client_Do c req) s hReq ->
  exists u, url_Parse (Restclient.Request.Url req) = inl u /\
    http.URL hReq =
      url_String (withParams (Restclient.Request.Method req)
                    (Restclient.Request.Params req) u).
Proof.
  intros Hs. apply sends_build_legacy in Hs as [s1 B].
  apply build_message_legacy in B as (u & P & _ & U & _). eauto.
Qed.

(** C3. The supplied query parameters reach the final URL exactly for
    GET: with [GET], the query string is the encoding of a key/value set
    in which every supplied key holds its supplied value alone (whatever
    the raw URL had under that key) and every other key holds what the
    raw URL gave it; with any other method, and with no parameters, the
    URL is the parsed raw URL, whatever the parameters are.  In both
    files the URL of the message handed to the transport is that URL. *)
Theorem C3_query_params :
  (forall method params u,
     (method = GET -> forall ps, params = Some ps ->
        exists merged,
          withParams method params u
            = url.setRawQuery u (url_Encode merged) /\
          url.RawQuery (withParams method params u) = url_Encode merged /\
          (forall k v, ps !! k = Some v -> merged !! k = Some [v]) /\
          (forall k, ps !! k = None -> merged !! k = Query u !! k)) /\
     (method <> GET -> withParams method params u = u) /\
     (params = None -> withParams method params u = u)) /\
  (forall (c : Client V) req s hReq,
     sends (Part000.Client_Do c req) s hReq ->
     exists u, url_Parse (Part000.Request.Url req) = inl u /\
       http.URL hReq =
         url_String (withParams (Part000.Request.Method req)
                       (Part000.Request.Params req) u)) /\
  (forall (c : Client V) req s hReq,
     sends (Restclient.Client_Do c req) s hReq ->
     exists u, url_Parse (Restclient.Request.Url req) = inl u /\
       http.URL hReq =
         url_String (withParams (Restclient.Request.Method req)
                       (Restclient.Request.Params req) u)).
Proof.
  split; [|split; [apply final_url|apply final_url_legacy]].
  intros method params u. unfold withParams. repeat split.
  - intros -> ps ->. rewrite decide_True by reflexivity.
    exists (rangeSet (Query u) ps). repeat split.
    + intros k v Hk. by rewrite rangeSet_lookup, Hk.
    + intros k Hk. by rewrite rangeSet_lookup, Hk.
  - intros Hne. destruct params; [|reflexivity].
    by rewrite decide_False.
  - by intros ->.
Qed.

(** C4. With a payload, the body of the message is the JSON encoding of
    the payload and the message carries
    [Content-Type: application/json]; without one, the message has no
    body.  In both files. *)
Theorem C4_payload_body :
  (forall (c : Client V) req s hReq,
     sends (Part000.Client_Do c req) s hReq ->
     if is_nil (Part000.Request.Data req)
     then http.Body hReq = None
     else exists b,
       encode_any (objs s) (Part000.Request.Data req) = inl b /\
       http.Body hReq = Some b /\
       http.Hdr hReq !! "Content-Type" = Some ["application/json"]) /\
  (forall (c : Client V) req s hReq,
     sends (Restclient.Client_Do c req) s hReq ->
     if is_nil (Restclient.Request.Data req)
     then http.Body hReq = None
     else exists b,
       encode_any (objs s) (Restclient.Request.Data req) = inl b /\
       http.Body hReq = Some b /\
       http.Hdr hReq !! "Content-Type" = Some ["application/json"]).
Proof.
  split; intros c req s hReq Hs.
  - apply sends_build in Hs as [s1 B].
    apply build_message in B as (u & _ & _ & _ & Bd & Hh).
    destruct (defaults_fields c req) as (_ & _ & _ & E4 & _ & E6).
    rewrite E4 in Bd, Hh. rewrite E6 in Hh.
    destruct (is_nil (Part000.Request.Data req)); [exact Bd|].
    destruct Bd as (b & Eb & Bb). exists b. repeat split; try assumption.
    rewrite Hh. simpl.
    destruct (Part000.Request.Userinfo req);
      rewrite ?lookup_insert_ne by done; apply lookup_singleton_eq.
  - apply sends_build_legacy in Hs as [s1 B].
    apply build_message_legacy in B as (u & _ & _ & _ & Bd & Hh).
    simpl in Bd.
    destruct (is_nil (Restclient.Request.Data req)); [exact Bd|].
    destruct Bd as (b & Eb & Bb). exists b. repeat split; try assumption.
    rewrite Hh. simpl.
    rewrite ?lookup_insert_ne by done; apply lookup_singleton_eq.
Qed.

(** What [Do] returns when the transport replies with a body, in terms
    of the decode into the destination the status selects. *)
Lemma Do_decoded (c : Client V) req s hReq hResp data :
  sends (Part000.Client_Do c req) s hReq ->
  HttpClient c hReq = (Some hResp, None) ->
  http.BodyRead hResp = (data, None) ->
  data <> "" ->
  let req' := Part000.defaults c req in
  let status := http.StatusCode hResp in
  let target := if is_success status
                then Part000.Request.Result req'
                else Part000.Request.Error req' in
  let '(x', h', e) := decode data target (objs s) in
  exists err s',
    Part000.Client_Do c req s =
      Ret (Some (Part000.Response.mk status zeroTime
                   (if is_success status then x'
                    else Part000.Request.Result req')
                   (if is_success status then Part000.Request.Error req'
                    else x')
                   data None), err) s' /\
    objs s' = h' /\
    cells s' = cells s ++
           [if is_success status then x' else Part000.Request.Result req';
            if is_success status then Part000.Request.Error req' else x'] ++
           match e with
           | None => []
           | Some _ => match json_decode_any data with
                       | inl g => [Val g]
                       | inr _ => [Nil]
                       end
           end /\
    err = match e with
          | None => None
          | Some _ => match json_decode_any data with
                      | inl _ => None
                      | inr e2 => Some e2
                      end
          end.
Proof.
  intros Hs Ht Hb Hne req' status target.
  apply sends_build in Hs as [s1 B]. fold req' in B.
  destruct (build_events req' s) as (evs & _ & Ho & Hc & _).
  rewrite B in Ho, Hc. simpl in Ho, Hc.
  pose proof (resolve_decoded req' hResp
    (mkState (objs s1) (cells s1) (trace s1 ++ [EvSend hReq])) data Hb Hne)
    as R.
  simpl in R. rewrite Ho, Hc in R. fold status target in R.
  destruct (decode data target (objs s)) as [[x' h'] e].
  destruct R as (err & cs & evs' & R & -> & -> & _).
  eexists _, _. split.
  { rewrite Do_stages. fold req'. rewrite B.
    unfold Part000.exchange. run. rewrite Ht. fold status. rewrite Ho, Hc.
    exact R. }
  repeat split.
Qed.

Lemma Do_decoded_legacy (c : Client V) req s hReq hResp data :
  sends (Restclient.Client_Do c req) s hReq ->
  HttpClient c hReq = (Some hResp, None) ->
  http.BodyRead hResp = (data, None) ->
  data <> "" ->
  let status := http.StatusCode hResp in
  let target := if is_success status
                then Restclient.Request.Result req
                else Restclient.Request.Error req in
  let '(x', h', e) := decode data target (objs s) in
  exists err s',
    Restclient.Client_Do c req s =
      Ret (Some (Restclient.Response.mk (Some req) status
                   (if is_success status then x'
                    else Restclient.Request.Result req)
                   (if is_success status then Restclient.Request.Error req
                    else x')
                   data), err) s' /\
    objs s' = h' /\
    err = match e with
          | None => None
          | Some _ => match json_decode_any data with
                      | inl _ => None
                      | inr e2 => Some e2
                      end
          end.
Proof.
  intros Hs Ht Hb Hne status target.
  apply sends_build_legacy in Hs as [s1 B].
  destruct (build_events_legacy req (objs s) (cells s)
              (Restclient.Request.Result req) (Restclient.Request.Error req)
              (trace s)) as (evs & _ & F).
  simpl in F. rewrite B in F. simpl in F. subst s1.
  pose proof (resolve_decoded_legacy req hResp (objs s) (cells s)
    (Restclient.Request.Result req) (Restclient.Request.Error req)
    ((trace s ++ evs) ++ [EvSend hReq]) data Hb Hne) as R.
  simpl in R. fold status target in R.
  destruct (decode data target (objs s)) as [[x' h'] e].
  destruct R as (err & cs & evs' & R & -> & _).
  eexists _, _. split.
  { rewrite Do_stages_legacy. simpl. rewrite B.
    unfold Restclient.exchange. run. rewrite Ht. fold status.
    exact R. }
  repeat split.
Qed.


(** C1. When the decode into the selected destination fails and the
    generic decode goes through, [Do] reports no error, but the generic
    value is not in the response: both slots are those of the
    descriptor, and the value sits in a cell of its own that nothing
    refers to.  [unmarshal] itself returns with the cell it was given
    unchanged.  In both files. *)
Theorem C1_generic_value_dropped :
  (forall data v (s : State V) p o o' e g,
     cells s !! v = Some (Ptr p) ->
     objs s !! p = Some o ->
     json_decode_into data o = (o', Some e) ->
     json_decode_any data = inl g ->
     unmarshal data v s =
       Ret None
         (mkState (<[p := o']> (objs s)) (cells s ++ [Val g])
            (trace s ++ [EvUnmarshal data v;
                         EvUnmarshal data (length (cells s))]))) /\
  (forall (c : Client V) req s hReq hResp data p o o' e g,
     sends (Part000.Client_Do c req) s hReq ->
     HttpClient c hReq = (Some hResp, None) ->
     http.BodyRead hResp = (data, None) ->
     data <> "" ->
     let req' := Part000.defaults c req in
     (if is_success (http.StatusCode hResp)
      then Part000.Request.Result req'
      else Part000.Request.Error req') = Ptr p ->
     objs s !! p = Some o ->
     json_decode_into data o = (o', Some e) ->
     json_decode_any data = inl g ->
     exists resp s',
       Part000.Client_Do c req s = Ret (Some resp, None) s' /\
       Part000.Response.Result resp = Part000.Request.Result req' /\
       Part000.Response.Error resp = Part000.Request.Error req' /\
       objs s' = <[p := o']> (objs s) /\
       cells s' = cells s ++ [Part000.Request.Result req';
                              Part000.Request.Error req'; Val g]) /\
  (forall (c : Client V) req s hReq hResp data p o o' e g,
     sends (Restclient.Client_Do c req) s hReq ->
     HttpClient c hReq = (Some hResp, None) ->
     http.BodyRead hResp = (data, None) ->
     data <> "" ->
     (if is_success (http.StatusCode hResp)
      then Restclient.Request.Result req
      else Restclient.Request.Error req) = Ptr p ->
     objs s !! p = Some o ->
     json_decode_into data o = (o', Some e) ->
     json_decode_any data = inl g ->
     exists resp s',
       Restclient.Client_Do c req s = Ret (Some resp, None) s' /\
       Restclient.Response.Result resp = Restclient.Request.Result req /\
       Restclient.Response.Error resp = Restclient.Request.Error req /\
       objs s' = <[p := o']> (objs s)).
Proof.
  split; [|split].
  - intros data v s p o o' e g Hv Ho Hd Hg.
    pose proof (unmarshal_run data v s (Ptr p) Hv) as U.
    pose proof (into_error_not_null data o o' e Hd) as Hn.
    rewrite (decode_ptr data p (objs s) o Hn Ho), Hd in U. simpl in U.
    rewrite Hg in U. rewrite U. by rewrite list_insert_id.
  - intros c req s hReq hResp data p o o' e g Hs Ht Hb Hne req' Hp Ho Hd Hg.
    pose proof (Do_decoded c req s hReq hResp data Hs Ht Hb Hne) as D.
    simpl in D. fold req' in D. rewrite Hp in D.
    pose proof (into_error_not_null data o o' e Hd) as Hn.
    rewrite (decode_ptr data p (objs s) o Hn Ho), Hd in D. simpl in D.
    rewrite Hg in D.
    destruct D as (err & s' & R & Ho' & Hc' & He).
    eexists _, s'. split; [rewrite R, He; reflexivity|]. simpl.
    rewrite Ho', Hc'.
    destruct (is_success (http.StatusCode hResp)); rewrite <- Hp; done.
  - intros c req s hReq hResp data p o o' e g Hs Ht Hb Hne Hp Ho Hd Hg.
    pose proof (Do_decoded_legacy c req s hReq hResp data Hs Ht Hb Hne) as D.
    simpl in D. rewrite Hp in D.
    pose proof (into_error_not_null data o o' e Hd) as Hn.
    rewrite (decode_ptr data p (objs s) o Hn Ho), Hd in D. simpl in D.
    rewrite Hg in D.
    destruct D as (err & s' & R & Ho' & He).
    eexists _, s'. split; [rewrite R, He; reflexivity|]. simpl.
    rewrite Ho'.
    destruct (is_success (http.StatusCode hResp)); rewrite <- Hp; done.
Qed.

(** C6. A reply whose body is empty: [Do] returns the response with the
    status and the empty text and no error, both slots are those of the
    descriptor (after defaults), no object is written and no decode is
    attempted.  In both files. *)
Theorem C6_empty_body :
  (forall (c : Client V) req s hReq hResp,
     sends (Part000.Client_Do c req) s hReq ->
     HttpClient c hReq = (Some hResp, None) ->
     http.BodyRead hResp = ("", None) ->
     exists s',
       Part000.Client_Do c req s =
         Ret (Some (Part000.Response.mk (http.StatusCode hResp) zeroTime
                      (Part000.Request.Result req)
                      (Part000.Request.Error (Part000.defaults c req))
                      "" None), None) s' /\
       objs s' = objs s /\
       Forall (fun ev => is_decode ev = false)
         (events (Part000.Client_Do c req) s)) /\
  (forall (c : Client V) req s hReq hResp,
     sends (Restclient.Client_Do c req) s hReq ->
     HttpClient c hReq = (Some hResp, None) ->
     http.BodyRead hResp = ("", None) ->
     exists s',
       Restclient.Client_Do c req s =
         Ret (Some (Restclient.Response.mk (Some req)
                      (http.StatusCode hResp)
                      (Restclient.Request.Result req)
                      (Restclient.Request.Error req) ""), None) s' /\
       objs s' = objs s /\
       Forall (fun ev => is_decode ev = false)
         (events (Restclient.Client_Do c req) s)).
Proof.
  split; intros c req s hReq hResp Hs Ht Hb.
  - apply sends_build in Hs as [s1 B].
    destruct (build_events (Part000.defaults c req) s)
      as (evs & P & Ho & Hc & T).
    rewrite B in Ho, Hc, T. simpl in Ho, Hc, T.
    destruct (defaults_fields c req) as (_ & _ & _ & _ & E5 & _).
    assert (R : Part000.Client_Do c req s =
      Ret (Some (Part000.Response.mk (http.StatusCode hResp) zeroTime
                      (Part000.Request.Result req)
                      (Part000.Request.Error (Part000.defaults c req))
                      "" None), None)
          (mkState (objs s)
             (cells s ++ [Part000.Request.Result req;
                          Part000.Request.Error (Part000.defaults c req)])
             (trace s ++ evs ++ [EvSend hReq; EvReadAll hResp]))).
    { rewrite Do_stages, B. unfold Part000.exchange, Part000.resolve,
        Part000.snapshot. run. rewrite Ht, Hb. run. cells.
      rewrite Ho, Hc, T, E5. cells. reflexivity. }
    eexists. split; [exact R|]. split; [reflexivity|].
    rewrite (events_app _ _ (evs ++ [EvSend hReq; EvReadAll hResp]))
      by (by rewrite R).
    apply Forall_app. split.
    + eapply Forall_impl; [exact P|]. by intros [].
    + by repeat constructor.
  - apply sends_build_legacy in Hs as [s1 B].
    destruct (build_events_legacy req (objs s) (cells s)
                (Restclient.Request.Result req) (Restclient.Request.Error req)
                (trace s)) as (evs & P & F).
    simpl in F. rewrite B in F. simpl in F. subst s1.
    assert (R : Restclient.Client_Do c req s =
      Ret (Some (Restclient.Response.mk (Some req) (http.StatusCode hResp)
                      (Restclient.Request.Result req)
                      (Restclient.Request.Error req) ""), None)
          (mkState (objs s)
             (cells s ++ [Restclient.Request.Result req;
                          Restclient.Request.Error req])
             (trace s ++ evs ++ [EvSend hReq; EvReadAll hResp]))).
    { rewrite Do_stages_legacy. simpl. rewrite B.
      unfold Restclient.exchange, Restclient.resolve, Restclient.snapshot.
      run. rewrite Ht, Hb. run. cells. reflexivity. }
    eexists. split; [exact R|]. split; [reflexivity|].
    rewrite (events_app _ _ (evs ++ [EvSend hReq; EvReadAll hResp]))
      by (by rewrite R).
    apply Forall_app. split.
    + eapply Forall_impl; [exact P|]. by intros [].
    + by repeat constructor.
Qed.

(** What [build] returns before the transport is reached carries no
    response. *)
Lemma build_early (req : Part000.Request.t V) s out s1 :
  Part000.build req s = Ret (inr out) s1 -> out.1 = None.
Proof.
  unfold Part000.build, json_Marshal, NewRequest. run.
  destruct (url_Parse _) as [u|e]; simpl; [|by intros [= <- _]].
  destruct (is_nil _); simpl.
  - destruct (http_check _ _); simpl; [by intros [= <- _]|discriminate].
  - destruct (encode_any _ _); simpl; [|by intros [= <- _]].
    destruct (http_check _ _); simpl; discriminate.
Qed.

Lemma resolve_timestamp (req : Part000.Request.t V) hResp s resp err s' :
  Part000.resolve req hResp s = Ret (Some resp, err) s' ->
  Part000.Response.Timestamp resp = zeroTime.
Proof.
  destruct (http.BodyRead hResp) as [data [e|]] eqn:B.
  - unfold Part000.resolve, Part000.snapshot. rewrite B. run.
    edestruct (complain_run (V:=V) e (http.StatusCode hResp) data) as [msg ->].
    simpl. cells. by intros [= <- _ _].
  - destruct (decide (data = "")) as [->|Hne].
    + unfold Part000.resolve, Part000.snapshot. rewrite B. run. cells.
      by intros [= <- _ _].
    + pose proof (resolve_decoded req hResp s data B Hne) as R. simpl in R.
      destruct (decode _ _ _) as [[x' h'] de].
      destruct R as (err' & cs & evs & -> & _).
      by intros [= <- _ _].
Qed.

(** C10. The [Timestamp] of every response [Do] returns is the zero
    value of [time.Time]: no statement of [Do] assigns the field. *)
Theorem C10_timestamp_zero (c : Client V) req s resp err s' :
  Part000.Client_Do c req s = Ret (Some resp, err) s' ->
  Part000.Response.Timestamp resp = zeroTime.
Proof.
  rewrite Do_stages.
  destruct (Part000.build _ s) as [[hReq|out] s1|s1] eqn:B.
  - unfold Part000.exchange. run.
    destruct (HttpClient c hReq) as [[hResp|] [e|]]; simpl; try discriminate.
    + edestruct (complain_run (V:=V) e (http.StatusCode hResp) "") as [msg ->].
      discriminate.
    + apply resolve_timestamp.
  - apply build_early in B. intros [= -> _]. discriminate.
  - discriminate.
Qed.

(** C5. The transport fails and hands back no response, as it does
    when it cannot connect: [Do] panics on [hResp.StatusCode], the
    hand-over to the transport being the last thing it did; nothing is
    logged and nothing is returned. *)
Theorem C5_transport_failure_panics (c : Client V) req s hReq err :
  sends (Part000.Client_Do c req) s hReq ->
  HttpClient c hReq = (None, Some err) ->
  (exists s', Part000.Client_Do c req s = Panic s') /\
  last (events (Part000.Client_Do c req) s) = Some (EvSend hReq).
Proof.
  intros Hs Ht. apply sends_build in Hs as [s1 B].
  destruct (build_events (Part000.defaults c req) s) as (evs & _ & _ & _ & T).
  rewrite B in T. simpl in T.
  assert (R : Part000.Client_Do c req s =
    Panic (mkState (objs s1) (cells s1) (trace s ++ evs ++ [EvSend hReq]))).
  { rewrite Do_stages, B. unfold Part000.exchange. run. rewrite Ht, T.
    by rewrite <- app_assoc. }
  split; [eauto|].
  rewrite (events_app _ _ (evs ++ [EvSend hReq])) by (by rewrite R).
  apply last_snoc.
Qed.

(** The transport fails but hands back a response: [Do] returns the
    error and no response, after one log entry, without reading a
    body. *)
Lemma transport_failure_with_response (c : Client V) req s hReq hResp err :
  sends (Part000.Client_Do c req) s hReq ->
  HttpClient c hReq = (Some hResp, Some err) ->
  exists s' msg,
    Part000.Client_Do c req s = Ret (None, Some err) s' /\
    last (events (Part000.Client_Do c req) s) = Some (EvLog [LStr msg]) /\
    Forall (fun ev => is_read ev = false)
      (events (Part000.Client_Do c req) s).
Proof.
  intros Hs Ht. apply sends_build in Hs as [s1 B].
  destruct (build_events (Part000.defaults c req) s) as (evs & P & _ & _ & T).
  rewrite B in T. simpl in T.
  destruct (complain_run err (http.StatusCode hResp) ""
              (mkState (objs s1) (cells s1) (trace s1 ++ [EvSend hReq])))
    as [msg C].
  assert (R : Part000.Client_Do c req s =
    Ret (None, Some err)
        (mkState (objs s1) (cells s1)
           (trace s ++ evs ++ [EvSend hReq; EvLog [LStr msg]]))).
  { rewrite Do_stages, B. unfold Part000.exchange. run. rewrite Ht, C.
    simpl. rewrite T. by rewrite <- !app_assoc. }
  eexists _, msg. split; [exact R|].
  rewrite (events_app _ _ (evs ++ [EvSend hReq; EvLog [LStr msg]]))
    by (by rewrite R).
  split.
  - by rewrite last_app_cons.
  - apply Forall_app. split; [|by repeat constructor].
    eapply Forall_impl; [exact P|]. by intros [].
Qed.

(** In [restclient.go] the same failure returns the response under
    construction together with the error. *)
Lemma transport_failure_legacy (c : Client V) req s hReq hResp err :
  sends (Restclient.Client_Do c req) s hReq ->
  HttpClient c hReq = (hResp, Some err) ->
  exists s',
    Restclient.Client_Do c req s =
      Ret (Some (Restclient.Response.mk (Some req) 0
                   (Restclient.Request.Result req)
                   (Restclient.Request.Error req) ""), Some err) s'.
Proof.
  intros Hs Ht. apply sends_build_legacy in Hs as [s1 B].
  destruct (build_events_legacy req (objs s) (cells s)
              (Restclient.Request.Result req) (Restclient.Request.Error req)
              (trace s)) as (evs & P & F).
  simpl in F. rewrite B in F. simpl in F. subst s1.
  rewrite Do_stages_legacy. simpl. rewrite B.
  unfold Restclient.exchange, Println, emit, bind. rewrite Ht.
  destruct caller_of_Do as [[file line]|]; cbv beta iota zeta;
    unfold objs, cells, trace at 1 2; rewrite fail_run; eauto.
Qed.

(** C8. [Do] can panic.  In [part_000] it does whenever the transport
    fails without a response; in both files it does whenever a payload
    is present and [http.NewRequest] refuses the method or the URL,
    [hReq.Header] being reached before the error is looked at. *)
Theorem C8_Do_panics :
  (forall (c : Client V) req s hReq err,
     sends (Part000.Client_Do c req) s hReq ->
     HttpClient c hReq = (None, Some err) ->
     exists s', Part000.Client_Do c req s = Panic s') /\
  (forall (c : Client V) req s u b e,
     is_nil (Part000.Request.Data req) = false ->
     url_Parse (Part000.Request.Url req) = inl u ->
     encode_any (objs s) (Part000.Request.Data req) = inl b ->
     http_check (Part000.Request.Method req)
       (url_String (withParams (Part000.Request.Method req)
                      (Part000.Request.Params req) u)) = Some e ->
     exists s', Part000.Client_Do c req s = Panic s') /\
  (forall (c : Client V) req s u b e,
     is_nil (Restclient.Request.Data req) = false ->
     url_Parse (Restclient.Request.Url req) = inl u ->
     encode_any (objs s) (Restclient.Request.Data req) = inl b ->
     http_check (Restclient.Request.Method req)
       (url_String (withParams (Restclient.Request.Method req)
                      (Restclient.Request.Params req) u)) = Some e ->
     exists s', Restclient.Client_Do c req s = Panic s').
Proof.
  repeat split.
  - intros c req s hReq err Hs Ht.
    apply sends_build in Hs as [s1 B].
    rewrite Do_stages, B. unfold Part000.exchange. run. rewrite Ht. eauto.
  - intros c req s u b e Hd Hu Hb Hc.
    destruct (defaults_fields c req) as (E1 & E2 & E3 & E4 & _).
    rewrite Do_stages.
    unfold Part000.build, json_Marshal, NewRequest. run.
    rewrite E1, E2, E3, E4, Hu, Hd. simpl. rewrite Hb. simpl. rewrite Hc.
    eauto.
  - intros c req s u b e Hd Hu Hb Hc.
    unfold Restclient.Client_Do, Restclient.build, json_Marshal, NewRequest.
    run. rewrite Hu, Hd. simpl. rewrite Hb. simpl. rewrite Hc. eauto.
Qed.

(** C7. [Do] never reads [req.Headers]: whatever the field holds, the
    run is the same, message included. *)
Theorem C7_headers_ignored (c : Client V) req h s :
  Part000.Client_Do c (Part000.Request.setHeaders req h) s =
  Part000.Client_Do c req s.
Proof.
  unfold Part000.Client_Do, Part000.defaults. destruct req; simpl.
  destruct (is_nil Error); reflexivity.
Qed.

(** C9. In [restclient.go], [Do] never reads [c.DefaultError]: whatever
    the field holds, the run is the same. *)
Theorem C9_default_error_unused (c : Client V) d req s :
  Restclient.Client_Do (mkClient (HttpClient c) d) req s =
  Restclient.Client_Do c req s.
Proof. reflexivity. Qed.

(** In [part_000] the default is put in place before the reply is
    resolved: with the error destination unset, a reply with a body and
    an error status is decoded into the default error destination. *)
Lemma default_error_used (c : Client V) req s hReq hResp data :
  sends (Part000.Client_Do c req) s hReq ->
  HttpClient c hReq = (Some hResp, None) ->
  http.BodyRead hResp = (data, None) ->
  data <> "" ->
  is_success (http.StatusCode hResp) = false ->
  is_nil (Part000.Request.Error req) = true ->
  exists resp err s',
    Part000.Client_Do c req s = Ret (Some resp, err) s' /\
    (Part000.Response.Error resp, objs s')
      = (decode data (DefaultError c) (objs s)).1.
Proof.
  intros Hs Ht Hb Hne Hst Hnil.
  pose proof (Do_decoded c req s hReq hResp data Hs Ht Hb Hne) as D.
  simpl in D. rewrite Hst in D.
  unfold Part000.defaults in D. rewrite Hnil in D. simpl in D.
  destruct (decode data (DefaultError c) (objs s)) as [[x' h'] e].
  destruct D as (err & s' & R & Ho & _).
  eexists _, _, _. split; [exact R|]. simpl. by rewrite Ho.
Qed.
End Statements.

(** * Further properties of [Do] and its helpers *)

(** ** The stages, path by path *)

Section Paths.
Context {V : Type} `{!JSON V} `{!Lib}.
Implicit Types (s : State V) (c : Client V).

(** [s] with [evs] added to its trace. *)
Local Notation "s ▷ evs" :=
  (mkState (objs s) (cells s) (trace s ++ evs)) (at level 50).

Lemma build_parse_fail (req : Part000.Request.t V) s err :
  url_Parse (Part000.Request.Url req) = inr err ->
  Part000.build req s = Ret (inr (None, Some err)) (s ▷ [EvLog [LErr err]]).
Proof. intros E. unfold Part000.build. rewrite E. reflexivity. Qed.

Lemma build_marshal_fail (req : Part000.Request.t V) s u err :
  url_Parse (Part000.Request.Url req) = inl u ->
  is_nil (Part000.Request.Data req) = false ->
  encode_any (objs s) (Part000.Request.Data req) = inr err ->
  Part000.build req s =
    Ret (inr (None, Some err))
        (s ▷ [EvMarshal (Part000.Request.Data req); EvLog [LErr err]]).
Proof.
  intros E N M. unfold Part000.build, json_Marshal. rewrite E, N. run.
  rewrite M. simpl. by rewrite <- app_assoc.
Qed.

Lemma build_check_fail (req : Part000.Request.t V) s u e :
  url_Parse (Part000.Request.Url req) = inl u ->
  is_nil (Part000.Request.Data req) = true ->
  http_check (Part000.Request.Method req)
    (url_String (withParams (Part000.Request.Method req)
                   (Part000.Request.Params req) u)) = Some e ->
  Part000.build req s = Ret (inr (None, Some e)) (s ▷ [EvLog [LErr e]]).
Proof.
  intros E N C. unfold Part000.build, NewRequest. rewrite E, N. run.
  rewrite C. reflexivity.
Qed.

(** Every way [build] can end: with a message, after the payload, if
    any, is encoded; with an error and no response, the error being the
    last thing logged; or in a panic. *)
Lemma build_outcome (req : Part000.Request.t V) s :
  let marshal : list (event V) :=
    if is_nil (Part000.Request.Data req) then []
    else [EvMarshal (Part000.Request.Data req)] in
  match Part000.build req s with
  | Ret (inl hReq) s1 => s1 = s ▷ marshal
  | Ret (inr out) s1 =>
      exists err pre, out = (None, Some err) /\
        (pre = [] \/ pre = marshal) /\
        s1 = s ▷ (pre ++ [EvLog [LErr err]])
  | Panic s1 => s1 = s ▷ marshal
  end.
Proof.
  unfold Part000.build, json_Marshal, NewRequest. run.
  destruct (url_Parse _) as [u|e]; simpl.
  2:{ exists e, []. auto. }
  destruct (is_nil _); simpl.
  - destruct (http_check _ _) as [e|]; simpl.
    + exists e, []. auto.
    + rewrite app_nil_r. by destruct s.
  - destruct (encode_any _ _) as [b|e]; simpl.
    + destruct (http_check _ _) as [e|]; reflexivity.
    + exists e, [EvMarshal (Part000.Request.Data req)].
      rewrite <- app_assoc. auto.
Qed.

(** The reply has a body: the events of [resolve], one by one. *)
Lemma resolve_trace (req : Part000.Request.t V) hResp s data :
  http.BodyRead hResp = (data, None) ->
  data <> "" ->
  let status := http.StatusCode hResp in
  let target := if is_success status
                then Part000.Request.Result req
                else Part000.Request.Error req in
  let n := length (cells s) in
  exists out s',
    Part000.resolve req hResp s = Ret out s' /\
    trace s' = trace s ++
      EvReadAll hResp ::
      EvUnmarshal data (if is_success status then n else (n + 1)%nat) ::
      match (decode data target (objs s)).2 with
      | None => []
      | Some _ =>
          EvUnmarshal data (n + 2)%nat ::
          match json_decode_any data with
          | inl _ => []
          | inr e2 => decode_log status e2 data hResp
          end
      end.
Proof.
  intros Hbody Hne status target n.
  destruct (decode data target (objs s)) as [[x' h'] e] eqn:D.
  unfold Part000.resolve. rewrite Hbody. fold status.
  destruct (decide (data = "")) as [|_]; [contradiction|].
  unfold Part000.snapshot. run.
  destruct (is_success status) eqn:S; subst target.
  - pose proof (unmarshal_run data (length (cells s))
      (mkState (objs s)
         ((cells s ++ [Part000.Request.Result req])
            ++ [Part000.Request.Error req])
         (trace s ++ [EvReadAll hResp])) (Part000.Request.Result req)) as U.
    simpl in U. revert U. cells. intros U. specialize (U eq_refl).
    rewrite D in U. rewrite U. clear U.
    destruct e as [e|]; [destruct (json_decode_any data) as [g|e2]|];
      simpl; cells; rewrite <- ?Nat.add_assoc; simpl;
      eexists _, _; (split; [reflexivity|]); reflexivity.
  - pose proof (unmarshal_run data
      (length (cells s ++ [Part000.Request.Result req]))
      (mkState (objs s)
         ((cells s ++ [Part000.Request.Result req])
            ++ [Part000.Request.Error req])
         (trace s ++ [EvReadAll hResp])) (Part000.Request.Error req)) as U.
    simpl in U. revert U. cells. intros U. specialize (U eq_refl).
    rewrite D in U. rewrite U. clear U.
    destruct e as [e|]; [destruct (json_decode_any data) as [g|e2]|];
      simpl; cells; rewrite <- ?Nat.add_assoc; simpl;
      eexists _, _; (split; [reflexivity|]); reflexivity.
Qed.

(** The error [Do] reports after the decode [de] of the body. *)
Local Abbreviation decode_error de data :=
  (match de with
   | None => None
   | Some _ => match json_decode_any data with
               | inl _ => None
               | inr e2 => Some e2
               end
   end).

(** The events of [resolve] after the body is read. *)
Local Abbreviation decode_events de status data hResp n first :=
  (EvUnmarshal data first ::
   match de with
   | None => []
   | Some _ =>
       EvUnmarshal data (n + 2)%nat ::
       match json_decode_any data with
       | inl _ => []
       | inr e2 => decode_log status e2 data hResp
       end
   end).

(** Every run of [Do] in [part_000], path by path: what it returns or
    that it panics, and the state it ends in. *)
Lemma Do_paths c (req : Part000.Request.t V) s :
  let req' := Part000.defaults c req in
  let R := Part000.Request.Result req in
  let E := Part000.Request.Error req' in
  let marshal : list (event V) :=
    if is_nil (Part000.Request.Data req) then []
    else [EvMarshal (Part000.Request.Data req)] in
  match Part000.build req' s with
  | Panic _ => Part000.Client_Do c req s = Panic (s ▷ marshal)
  | Ret (inr _) _ =>
      exists err pre, (pre = [] \/ pre = marshal) /\
        Part000.Client_Do c req s =
          Ret (None, Some err) (s ▷ (pre ++ [EvLog [LErr err]]))
  | Ret (inl hReq) _ =>
      match HttpClient c hReq with
      | (None, _) =>
          Part000.Client_Do c req s = Panic (s ▷ (marshal ++ [EvSend hReq]))
      | (Some hResp, Some err) =>
          exists msg,
            Part000.Client_Do c req s =
              Ret (None, Some err)
                  (s ▷ (marshal ++ [EvSend hReq; EvLog [LStr msg]]))
      | (Some hResp, None) =>
          let status := http.StatusCode hResp in
          match http.BodyRead hResp with
          | (data, Some err) =>
              exists msg,
                Part000.Client_Do c req s =
                  Ret (Some (Part000.Response.mk status zeroTime R E "" None),
                       Some err)
                      (mkState (objs s) (cells s ++ [R; E])
                         (trace s ++ marshal ++
                            [EvSend hReq; EvReadAll hResp;
                             EvLog [LStr msg]]))
          | (data, None) =>
              if decide (data = "")
              then Part000.Client_Do c req s =
                     Ret (Some (Part000.Response.mk status zeroTime R E
                                  "" None), None)
                         (mkState (objs s) (cells s ++ [R; E])
                            (trace s ++ marshal ++
                               [EvSend hReq; EvReadAll hResp]))
              else
                let ok := is_success status in
                let '(x', h', de) :=
                  decode data (if ok then R else E) (objs s) in
                exists cs,
                  Part000.Client_Do c req s =
                    Ret (Some (Part000.Response.mk status zeroTime
                                 (if ok then x' else R)
                                 (if ok then E else x') data None),
                         decode_error de data)
                        (mkState h' cs
                           (trace s ++ marshal ++
                              EvSend hReq :: EvReadAll hResp ::
                              decode_events de status data hResp
                                (length (cells s))
                                (if ok then length (cells s)
                                 else (length (cells s) + 1)%nat)))
          end
      end
  end.
Proof.
  intros req' R E marshal.
  destruct (defaults_fields c req) as (_ & _ & _ & E4 & E5 & _).
  pose proof (build_outcome req' s) as B. simpl in B.
  fold req' in E4, E5. rewrite E4 in B. fold marshal in B.
  rewrite Do_stages. fold req'.
  destruct (Part000.build req' s) as [[hReq|out] s1|s1].
  - subst s1. unfold Part000.exchange. run.
    destruct (HttpClient c hReq) as [[hResp|] [err|]]; simpl.
    + edestruct (complain_run (V:=V) err (http.StatusCode hResp) "")
        as [msg ->].
      exists msg. simpl. by rewrite <- ?app_assoc.
    + destruct (http.BodyRead hResp) as [data [err|]] eqn:Hb.
      * unfold Part000.resolve, Part000.snapshot. rewrite Hb. run.
        edestruct (complain_run (V:=V) err (http.StatusCode hResp) data)
          as [msg ->].
        exists msg. simpl. cells. rewrite E5. by rewrite <- ?app_assoc.
      * destruct (decide (data = "")) as [->|Hne].
        -- unfold Part000.resolve, Part000.snapshot. rewrite Hb. run. cells.
           rewrite E5. by rewrite <- ?app_assoc.
        -- pose proof (resolve_decoded req' hResp
             (s ▷ marshal ▷ [EvSend hReq]) data Hb Hne) as D.
           pose proof (resolve_trace req' hResp
             (s ▷ marshal ▷ [EvSend hReq]) data Hb Hne) as T.
           simpl in D, T. rewrite E5 in D, T. fold R E in D, T.
           destruct (decode data _ (objs s)) as [[x' h'] de].
           destruct D as (err & cs & evs & D & -> & _).
           destruct T as (out & s' & T & Tr).
           rewrite D in T. injection T as <- <-. simpl in Tr.
           exists cs. rewrite D. do 2 f_equal. rewrite Tr.
           by rewrite <- ?app_assoc.
    + by rewrite <- ?app_assoc.
    + by rewrite <- ?app_assoc.
  - destruct B as (err & pre & -> & Hpre & ->). exists err, pre. auto.
  - by subst s1.
Qed.

(** *** The same for [restclient.go] *)

Lemma build_outcome_legacy (req : Restclient.Request.t V) h cs r e tr :
  let marshal : list (event V) :=
    if is_nil (Restclient.Request.Data req) then []
    else [EvMarshal (Restclient.Request.Data req)] in
  match Restclient.build req (length cs) (length cs + 1)
          (mkState h (cs ++ [r; e]) tr) with
  | Ret (inl hReq) s1 => s1 = mkState h (cs ++ [r; e]) (tr ++ marshal)
  | Ret (inr out) s1 =>
      exists err pre,
        out = (Some (Restclient.Response.mk (Some req) 0 r e ""), Some err) /\
        (pre = [] \/ pre = marshal) /\
        s1 = mkState h (cs ++ [r; e]) (tr ++ pre ++ [EvLog [LErr err]])
  | Panic s1 => s1 = mkState h (cs ++ [r; e]) (tr ++ marshal)
  end.
Proof.
  unfold Restclient.build, json_Marshal, NewRequest.
  destruct (url_Parse _) as [u|err].
  2:{ unfold Println, emit, bind, ret; simpl. rewrite fail_run. simpl.
      exists err, []. auto. }
  destruct (is_nil _).
  - destruct (http_check _ _) as [err|];
      unfold Println, emit, bind, ret; simpl.
    + rewrite fail_run. simpl. exists err, []. auto.
    + by rewrite app_nil_r.
  - unfold Println, emit, bind, ret, panic; simpl.
    destruct (encode_any _ _) as [b|err]; simpl.
    + destruct (http_check _ _) as [err|]; reflexivity.
    + rewrite fail_run. simpl.
      exists err, [EvMarshal (Restclient.Request.Data req)].
      rewrite <- app_assoc. auto.
Qed.

(** The events of [resolve] after the body is read. *)
Local Abbreviation decode_events_legacy de status data n first x y :=
  (EvUnmarshal data first ::
   match de with
   | None => []
   | Some _ =>
       EvUnmarshal data (n + 2)%nat ::
       match json_decode_any data with
       | inl _ => []
       | inr e2 => [EvLog [LResponse status x y data]; EvLog [LErr e2]]
       end
   end).

Lemma resolve_full_legacy (req : Restclient.Request.t V) hResp h cs r e tr
    data :
  http.BodyRead hResp = (data, None) ->
  data <> "" ->
  let status := http.StatusCode hResp in
  let ok := is_success status in
  let '(x', h', de) := decode data (if ok then r else e) h in
  exists cs',
    Restclient.resolve req (length cs) (length cs + 1) hResp
        (mkState h (cs ++ [r; e]) tr) =
      Ret (Some (Restclient.Response.mk (Some req) status
                   (if ok then x' else r) (if ok then e else x') data),
           decode_error de data)
          (mkState h' cs'
             (tr ++ EvReadAll hResp ::
                decode_events_legacy de status data (length cs)
                  (if ok then length cs else (length cs + 1)%nat)
                  (if ok then x' else r) (if ok then e else x'))).
Proof.
  intros Hbody Hne status ok.
  destruct (decode data (if ok then r else e) h) as [[x' h'] de] eqn:D.
  unfold Restclient.resolve. rewrite Hbody. fold status ok.
  destruct (decide (data = "")) as [|_]; [contradiction|].
  unfold Restclient.snapshot. run.
  destruct ok eqn:S.
  - pose proof (unmarshal_run data (length cs)
      (mkState h (cs ++ [r; e]) (tr ++ [EvReadAll hResp])) r) as U.
    simpl in U. revert U. cells. intros U. specialize (U eq_refl).
    rewrite D in U. rewrite U. clear U.
    destruct de as [de|]; [destruct (json_decode_any data) as [g|e2]|];
      simpl; cells; rewrite <- ?Nat.add_assoc; simpl;
      eexists; reflexivity.
  - pose proof (unmarshal_run data (length cs + 1)
      (mkState h (cs ++ [r; e]) (tr ++ [EvReadAll hResp])) e) as U.
    simpl in U. revert U. cells. intros U. specialize (U eq_refl).
    rewrite D in U. rewrite U. clear U.
    destruct de as [de|]; [destruct (json_decode_any data) as [g|e2]|];
      simpl; cells; rewrite <- ?Nat.add_assoc; simpl;
      eexists; reflexivity.
Qed.

(** Every run of [Do] in [restclient.go], path by path. *)
Lemma Do_paths_legacy c (req : Restclient.Request.t V) s :
  let R := Restclient.Request.Result req in
  let E := Restclient.Request.Error req in
  let marshal : list (event V) :=
    if is_nil (Restclient.Request.Data req) then []
    else [EvMarshal (Restclient.Request.Data req)] in
  let early := Restclient.Response.mk (Some req) 0 R E "" in
  match Restclient.build req (length (cells s)) (length (cells s) + 1)
          (mkState (objs s) (cells s ++ [R; E]) (trace s)) with
  | Panic _ =>
      Restclient.Client_Do c req s =
        Panic (mkState (objs s) (cells s ++ [R; E]) (trace s ++ marshal))
  | Ret (inr _) _ =>
      exists err pre, (pre = [] \/ pre = marshal) /\
        Restclient.Client_Do c req s =
          Ret (Some early, Some err)
              (mkState (objs s) (cells s ++ [R; E])
                 (trace s ++ pre ++ [EvLog [LErr err]]))
  | Ret (inl hReq) _ =>
      match HttpClient c hReq with
      | (_, Some err) =>
          exists msg,
            Restclient.Client_Do c req s =
              Ret (Some early, Some err)
                  (mkState (objs s) (cells s ++ [R; E])
                     (trace s ++ marshal ++
                        [EvSend hReq; EvLog [LStr msg; LErr err]]))
      | (None, None) =>
          Restclient.Client_Do c req s =
            Panic (mkState (objs s) (cells s ++ [R; E])
                     (trace s ++ marshal ++ [EvSend hReq]))
      | (Some hResp, None) =>
          let status := http.StatusCode hResp in
          match http.BodyRead hResp with
          | (data, Some err) =>
              Restclient.Client_Do c req s =
                Ret (Some (Restclient.Response.mk (Some req) status R E ""),
                     Some err)
                    (mkState (objs s) (cells s ++ [R; E])
                       (trace s ++ marshal ++
                          [EvSend hReq; EvReadAll hResp; EvLog [LErr err]]))
          | (data, None) =>
              if decide (data = "")
              then Restclient.Client_Do c req s =
                     Ret (Some (Restclient.Response.mk (Some req) status
                                  R E ""), None)
                         (mkState (objs s) (cells s ++ [R; E])
                            (trace s ++ marshal ++
                               [EvSend hReq; EvReadAll hResp]))
              else
                let ok := is_success status in
                let '(x', h', de) :=
                  decode data (if ok then R else E) (objs s) in
                exists cs,
                  Restclient.Client_Do c req s =
                    Ret (Some (Restclient.Response.mk (Some req) status
                                 (if ok then x' else R)
                                 (if ok then E else x') data),
                         decode_error de data)
                        (mkState h' cs
                           (trace s ++ marshal ++
                              EvSend hReq :: EvReadAll hResp ::
                              decode_events_legacy de status data
                                (length (cells s))
                                (if ok then length (cells s)
                                 else (length (cells s) + 1)%nat)
                                (if ok then x' else R)
                                (if ok then E else x')))
          end
      end
  end.
Proof.
  intros R E marshal early.
  pose proof (build_outcome_legacy req (objs s) (cells s) R E (trace s)) as B.
  simpl in B. fold marshal in B.
  rewrite Do_stages_legacy. simpl. fold R E.
  destruct (Restclient.build req _ _ _) as [[hReq|out] s1|s1].
  - subst s1. unfold Restclient.exchange, Println, emit, bind, panic.
    destruct (HttpClient c hReq) as [hResp [err|]]; cbv beta iota.
    + destruct hResp as [hResp|];
        destruct caller_of_Do as [[file line]|]; cbv beta iota zeta;
        unfold objs, cells, trace at 1 2; rewrite fail_run; simpl;
        eexists; by rewrite <- ?app_assoc.
    + simpl. destruct hResp as [hResp|]; [|by rewrite <- ?app_assoc].
      destruct (http.BodyRead hResp) as [data [err|]] eqn:Hb.
      * unfold Restclient.resolve, Restclient.snapshot. rewrite Hb. run.
        cells. by rewrite <- ?app_assoc.
      * destruct (decide (data = "")) as [->|Hne].
        -- unfold Restclient.resolve, Restclient.snapshot. rewrite Hb. run.
           cells. by rewrite <- ?app_assoc.
        -- pose proof (resolve_full_legacy req hResp (objs s) (cells s) R E
             ((trace s ++ marshal) ++ [EvSend hReq]) data Hb Hne) as D.
           simpl in D.
           destruct (decode data _ (objs s)) as [[x' h'] de].
           destruct D as (cs & D). exists cs. rewrite D.
           by rewrite <- ?app_assoc.
  - destruct B as (err & pre & -> & Hpre & ->). exists err, pre. auto.
  - by subst s1.
Qed.

End Paths.

(** ** Failures before the transport is reached *)

Section Further.
Context {V : Type} `{!JSON V} `{!Lib}.
Implicit Types (s : State V) (c : Client V).

(** X1. A raw URL that [url.Parse] refuses ends [Do] at once: the error
    is logged and returned, nothing is encoded, sent or decoded, none
    of the objects that interface values point to is written.
    [part_000] returns no response;
    [restclient.go] returns the response under construction, with
    status 0, empty text and the slots of the descriptor. *)
Theorem X1_url_parse_failure :
  (forall c (req : Part000.Request.t V) s err,
     url_Parse (Part000.Request.Url req) = inr err ->
     Part000.Client_Do c req s =
       Ret (None, Some err)
           (mkState (objs s) (cells s) (trace s ++ [EvLog [LErr err]]))) /\
  (forall c (req : Restclient.Request.t V) s err,
     url_Parse (Restclient.Request.Url req) = inr err ->
     Restclient.Client_Do c req s =
       Ret (Some (Restclient.Response.mk (Some req) 0
                    (Restclient.Request.Result req)
                    (Restclient.Request.Error req) ""), Some err)
           (mkState (objs s)
              (cells s ++ [Restclient.Request.Result req;
                           Restclient.Request.Error req])
              (trace s ++ [EvLog [LErr err]]))).
Proof.
  split; intros c req s err E.
  - destruct (defaults_fields c req) as (E1 & _).
    rewrite Do_stages, build_parse_fail with (err := err); [reflexivity|].
    by rewrite E1.
  - rewrite Do_stages_legacy. simpl.
    unfold Restclient.build. rewrite E.
    unfold Println, emit, bind, ret. simpl. by rewrite fail_run.
Qed.

(** X2. A payload that [json.Marshal] refuses ends [Do] before any
    message exists: the error is logged and returned, nothing is sent,
    none of the objects that interface values point to is written. *)
Theorem X2_marshal_failure :
  (forall c (req : Part000.Request.t V) s u err,
     url_Parse (Part000.Request.Url req) = inl u ->
     is_nil (Part000.Request.Data req) = false ->
     encode_any (objs s) (Part000.Request.Data req) = inr err ->
     Part000.Client_Do c req s =
       Ret (None, Some err)
           (mkState (objs s) (cells s)
              (trace s ++ [EvMarshal (Part000.Request.Data req);
                           EvLog [LErr err]]))) /\
  (forall c (req : Restclient.Request.t V) s u err,
     url_Parse (Restclient.Request.Url req) = inl u ->
     is_nil (Restclient.Request.Data req) = false ->
     encode_any (objs s) (Restclient.Request.Data req) = inr err ->
     Restclient.Client_Do c req s =
       Ret (Some (Restclient.Response.mk (Some req) 0
                    (Restclient.Request.Result req)
                    (Restclient.Request.Error req) ""), Some err)
           (mkState (objs s)
              (cells s ++ [Restclient.Request.Result req;
                           Restclient.Request.Error req])
              (trace s ++ [EvMarshal (Restclient.Request.Data req);
                           EvLog [LErr err]]))).
Proof.
  split; intros c req s u err E N M.
  - destruct (defaults_fields c req) as (E1 & _ & _ & E4 & _).
    rewrite Do_stages, build_marshal_fail with (u := u) (err := err);
      rewrite ?E1, ?E4; done.
  - rewrite Do_stages_legacy. simpl.
    unfold Restclient.build, json_Marshal. rewrite E, N.
    unfold Println, emit, bind, ret. simpl. rewrite M. simpl.
    rewrite fail_run. simpl. by rewrite <- app_assoc.
Qed.

(** X3. Without a payload, a method or URL that [http.NewRequest]
    refuses is an ordinary failure: the error is logged and returned
    and nothing is sent. *)
Theorem X3_new_request_failure :
  (forall c (req : Part000.Request.t V) s u e,
     url_Parse (Part000.Request.Url req) = inl u ->
     is_nil (Part000.Request.Data req) = true ->
     http_check (Part000.Request.Method req)
       (url_String (withParams (Part000.Request.Method req)
                      (Part000.Request.Params req) u)) = Some e ->
     Part000.Client_Do c req s =
       Ret (None, Some e)
           (mkState (objs s) (cells s) (trace s ++ [EvLog [LErr e]]))) /\
  (forall c (req : Restclient.Request.t V) s u e,
     url_Parse (Restclient.Request.Url req) = inl u ->
     is_nil (Restclient.Request.Data req) = true ->
     http_check (Restclient.Request.Method req)
       (url_String (withParams (Restclient.Request.Method req)
                      (Restclient.Request.Params req) u)) = Some e ->
     Restclient.Client_Do c req s =
       Ret (Some (Restclient.Response.mk (Some req) 0
                    (Restclient.Request.Result req)
                    (Restclient.Request.Error req) ""), Some e)
           (mkState (objs s)
              (cells s ++ [Restclient.Request.Result req;
                           Restclient.Request.Error req])
              (trace s ++ [EvLog [LErr e]]))).
Proof.
  split; intros c req s u e E N C.
  - destruct (defaults_fields c req) as (E1 & E2 & E3 & E4 & _).
    rewrite Do_stages, build_check_fail with (u := u) (e := e);
      rewrite ?E1, ?E2, ?E3, ?E4; done.
  - rewrite Do_stages_legacy. simpl.
    unfold Restclient.build, NewRequest. rewrite E, N.
    unfold Println, emit, bind, ret. simpl. rewrite C. simpl.
    by rewrite fail_run.
Qed.

(** ** The message *)

(** X4. Every message handed to the transport has the method of the
    descriptor, with [GET] in the place of the empty string as
    [http.NewRequest] puts it, and the header
    [Accept: application/json] with that single value: the header map
    is fresh, so the test for an unset [Accept] always succeeds. *)
Theorem X4_method_and_accept :
  (forall c (req : Part000.Request.t V) s hReq,
     sends (Part000.Client_Do c req) s hReq ->
     http.Method hReq =
       (if decide (Part000.Request.Method req = "") then "GET"
        else Part000.Request.Method req) /\
     http.Hdr hReq !! "Accept" = Some ["application/json"]) /\
  (forall c (req : Restclient.Request.t V) s hReq,
     sends (Restclient.Client_Do c req) s hReq ->
     http.Method hReq =
       (if decide (Restclient.Request.Method req = "") then "GET"
        else Restclient.Request.Method req) /\
     http.Hdr hReq !! "Accept" = Some ["application/json"]).
Proof.
  split; intros c req s hReq Hs.
  - apply sends_build in Hs as [s1 B].
    apply build_message in B as (u & _ & Hm & _ & _ & Hh).
    destruct (defaults_fields c req) as (_ & E2 & _).
    rewrite E2 in Hm. split; [exact Hm|].
    rewrite Hh. simpl.
    destruct (Part000.Request.Userinfo _);
      rewrite ?lookup_insert_ne by done; apply lookup_insert_eq.
  - apply sends_build_legacy in Hs as [s1 B].
    apply build_message_legacy in B as (u & _ & Hm & _ & _ & Hh).
    split; [exact Hm|]. rewrite Hh. apply lookup_insert_eq.
Qed.

(** X5. Basic authentication in [part_000]: with [Userinfo], the
    message carries the single [Authorization] value made of [Basic]
    and the encoded user name and password, the password being empty
    when none is set; without [Userinfo] it carries no [Authorization]
    header. *)
Theorem X5_basic_auth c (req : Part000.Request.t V) s hReq :
  sends (Part000.Client_Do c req) s hReq ->
  http.Hdr hReq !! "Authorization" =
    match Part000.Request.Userinfo req with
    | Some ui =>
        Some ["Basic " +:+
              http_basicAuth (url.Username ui)
                (default "" (url.password ui))]
    | None => None
    end.
Proof.
  intros Hs. apply sends_build in Hs as [s1 B].
  apply build_message in B as (u & _ & _ & _ & _ & Hh).
  destruct (defaults_fields c req) as (_ & _ & _ & E4 & _ & E6).
  rewrite E4, E6 in Hh. rewrite Hh. simpl.
  destruct (Part000.Request.Userinfo req) as [ui|].
  - rewrite lookup_insert_eq. unfold url.Password.
    by destruct (url.password ui).
  - rewrite lookup_insert_ne by done.
    destruct (is_nil _); [apply lookup_empty|].
    by rewrite lookup_singleton_ne.
Qed.

(** X6. The message has no header beyond [Accept], [Content-Type] and
    [Authorization]; it has no [Content-Type] when there is no payload,
    and in [restclient.go] never an [Authorization]. *)
Theorem X6_no_other_header :
  (forall c (req : Part000.Request.t V) s hReq,
     sends (Part000.Client_Do c req) s hReq ->
     (forall k, k <> "Accept" -> k <> "Content-Type" ->
                k <> "Authorization" -> http.Hdr hReq !! k = None) /\
     (is_nil (Part000.Request.Data req) = true ->
      http.Hdr hReq !! "Content-Type" = None)) /\
  (forall c (req : Restclient.Request.t V) s hReq,
     sends (Restclient.Client_Do c req) s hReq ->
     (forall k, k <> "Accept" -> k <> "Content-Type" ->
                http.Hdr hReq !! k = None) /\
     (is_nil (Restclient.Request.Data req) = true ->
      http.Hdr hReq !! "Content-Type" = None)).
Proof.
  split; intros c req s hReq Hs.
  - apply sends_build in Hs as [s1 B].
    apply build_message in B as (u & _ & _ & _ & _ & Hh).
    destruct (defaults_fields c req) as (_ & _ & _ & E4 & _ & E6).
    rewrite E4, E6 in Hh. rewrite Hh. simpl. split.
    + intros k K1 K2 K3.
      destruct (Part000.Request.Userinfo req);
        rewrite ?lookup_insert_ne by done;
        (destruct (is_nil _); [apply lookup_empty|]);
        by rewrite lookup_singleton_ne.
    + intros ->.
      destruct (Part000.Request.Userinfo req);
        rewrite ?lookup_insert_ne by done; apply lookup_empty.
  - apply sends_build_legacy in Hs as [s1 B].
    apply build_message_legacy in B as (u & _ & _ & _ & _ & Hh).
    rewrite Hh. simpl. split.
    + intros k K1 K2. rewrite lookup_insert_ne by done.
      destruct (is_nil _); [apply lookup_empty|].
      by rewrite lookup_singleton_ne.
    + intros ->. rewrite lookup_insert_ne by done. apply lookup_empty.
Qed.

(** ** The reply *)

(** X7. The body cannot be read to its end: [Do] returns the response
    with the status of the reply and the error of the read, the text of
    the response stays empty whatever was read, no decode is attempted
    and none of the objects that interface values point to is written;
    the last event is the log entry. *)
Theorem X7_body_read_failure :
  (forall c (req : Part000.Request.t V) s hReq hResp data err,
     sends (Part000.Client_Do c req) s hReq ->
     HttpClient c hReq = (Some hResp, None) ->
     http.BodyRead hResp = (data, Some err) ->
     exists s' msg,
       Part000.Client_Do c req s =
         Ret (Some (Part000.Response.mk (http.StatusCode hResp) zeroTime
                      (Part000.Request.Result req)
                      (Part000.Request.Error (Part000.defaults c req))
                      "" None), Some err) s' /\
       objs s' = objs s /\
       Forall (fun ev => is_decode ev = false)
         (events (Part000.Client_Do c req) s) /\
       last (events (Part000.Client_Do c req) s)
         = Some (EvLog [LStr msg])) /\
  (forall c (req : Restclient.Request.t V) s hReq hResp data err,
     sends (Restclient.Client_Do c req) s hReq ->
     HttpClient c hReq = (Some hResp, None) ->
     http.BodyRead hResp = (data, Some err) ->
     exists s',
       Restclient.Client_Do c req s =
         Ret (Some (Restclient.Response.mk (Some req)
                      (http.StatusCode hResp)
                      (Restclient.Request.Result req)
                      (Restclient.Request.Error req) ""), Some err) s' /\
       objs s' = objs s /\
       Forall (fun ev => is_decode ev = false)
         (events (Restclient.Client_Do c req) s) /\
       last (events (Restclient.Client_Do c req) s)
         = Some (EvLog [LErr err])).
Proof.
  split; intros c req s hReq hResp data err Hs Ht Hb.
  - apply sends_build in Hs as [s1 B].
    pose proof (Do_paths c req s) as P. simpl in P.
    rewrite B, Ht, Hb in P. destruct P as [msg P].
    eexists _, msg. split; [exact P|]. split; [reflexivity|].
    erewrite events_app by (rewrite P; reflexivity).
    split.
    + apply Forall_app. split; [destruct (is_nil _)|]; by repeat constructor.
    + by rewrite last_app_cons.
  - apply sends_build_legacy in Hs as [s1 B].
    pose proof (Do_paths_legacy c req s) as P. simpl in P.
    rewrite B, Ht, Hb in P.
    eexists. split; [exact P|]. split; [reflexivity|].
    erewrite events_app by (rewrite P; reflexivity).
    split.
    + apply Forall_app. split; [destruct (is_nil _)|]; by repeat constructor.
    + by rewrite last_app_cons.
Qed.

(** X8. Whenever the body is read, the response [Do] returns carries
    the status of the reply and, as its text, the body exactly as read,
    whether the body is empty, decodes, or fails to decode. *)
Theorem X8_status_and_text :
  (forall c (req : Part000.Request.t V) s hReq hResp data,
     sends (Part000.Client_Do c req) s hReq ->
     HttpClient c hReq = (Some hResp, None) ->
     http.BodyRead hResp = (data, None) ->
     exists resp err s',
       Part000.Client_Do c req s = Ret (Some resp, err) s' /\
       Part000.Response.Status resp = http.StatusCode hResp /\
       Part000.Response.RawText resp = data) /\
  (forall c (req : Restclient.Request.t V) s hReq hResp data,
     sends (Restclient.Client_Do c req) s hReq ->
     HttpClient c hReq = (Some hResp, None) ->
     http.BodyRead hResp = (data, None) ->
     exists resp err s',
       Restclient.Client_Do c req s = Ret (Some resp, err) s' /\
       Restclient.Response.Status resp = http.StatusCode hResp /\
       Restclient.Response.RawText resp = data).
Proof.
  split; intros c req s hReq hResp data Hs Ht Hb.
  - apply sends_build in Hs as [s1 B].
    pose proof (Do_paths c req s) as P. simpl in P.
    rewrite B, Ht, Hb in P.
    destruct (decide (data = "")) as [->|Hne].
    + eexists _, _, _. split; [exact P|]. split; reflexivity.
    + destruct (decode data _ (objs s)) as [[x' h'] de].
      destruct P as [cs P].
      eexists _, _, _. split; [exact P|]. split; reflexivity.
  - apply sends_build_legacy in Hs as [s1 B].
    pose proof (Do_paths_legacy c req s) as P. simpl in P.
    rewrite B, Ht, Hb in P.
    destruct (decide (data = "")) as [->|Hne].
    + eexists _, _, _. split; [exact P|]. split; reflexivity.
    + destruct (decode data _ (objs s)) as [[x' h'] de].
      destruct P as [cs P].
      eexists _, _, _. split; [exact P|]. split; reflexivity.
Qed.

(** X9. Both decodes fail: [Do] returns the response, with status and
    text, together with the error of the second, generic decode (the
    error of the first is dropped), and the run ends with the log
    entries: in [part_000] status, error, text, reply and its request;
    in [restclient.go] the response and the error. *)
Theorem X9_decode_failure :
  (forall c (req : Part000.Request.t V) s hReq hResp data e e2,
     sends (Part000.Client_Do c req) s hReq ->
     HttpClient c hReq = (Some hResp, None) ->
     http.BodyRead hResp = (data, None) ->
     data <> "" ->
     let status := http.StatusCode hResp in
     let target := if is_success status
                   then Part000.Request.Result req
                   else Part000.Request.Error (Part000.defaults c req) in
     (decode data target (objs s)).2 = Some e ->
     json_decode_any data = inr e2 ->
     exists resp s' pre,
       Part000.Client_Do c req s = Ret (Some resp, Some e2) s' /\
       Part000.Response.Status resp = status /\
       Part000.Response.RawText resp = data /\
       events (Part000.Client_Do c req) s
         = pre ++ decode_log status e2 data hResp /\
       Forall (fun ev => is_log ev = false) pre) /\
  (forall c (req : Restclient.Request.t V) s hReq hResp data e e2,
     sends (Restclient.Client_Do c req) s hReq ->
     HttpClient c hReq = (Some hResp, None) ->
     http.BodyRead hResp = (data, None) ->
     data <> "" ->
     let status := http.StatusCode hResp in
     let target := if is_success status
                   then Restclient.Request.Result req
                   else Restclient.Request.Error req in
     (decode data target (objs s)).2 = Some e ->
     json_decode_any data = inr e2 ->
     exists resp s' pre,
       Restclient.Client_Do c req s = Ret (Some resp, Some e2) s' /\
       Restclient.Response.Status resp = status /\
       Restclient.Response.RawText resp = data /\
       events (Restclient.Client_Do c req) s
         = pre ++ [EvLog [LResponse status (Restclient.Response.Result resp)
                            (Restclient.Response.Error resp) data];
                   EvLog [LErr e2]] /\
       Forall (fun ev => is_log ev = false) pre).
Proof.
  split; intros c req s hReq hResp data e e2 Hs Ht Hb Hne status target
    Hd Hg.
  - apply sends_build in Hs as [s1 B].
    pose proof (Do_paths c req s) as P. simpl in P.
    rewrite B, Ht, Hb in P.
    destruct (decide (data = "")) as [|_]; [contradiction|].
    fold status target in P.
    destruct (decode data target (objs s)) as [[x' h'] de].
    simpl in Hd. subst de. rewrite Hg in P. destruct P as [cs P].
    eexists _, _,
      ((if is_nil (Part000.Request.Data req) then []
        else [EvMarshal (Part000.Request.Data req)]) ++
       [EvSend hReq; EvReadAll hResp;
        EvUnmarshal data (if is_success status then length (cells s)
                          else (length (cells s) + 1)%nat);
        EvUnmarshal data (length (cells s) + 2)%nat]).
    split; [exact P|]. do 2 (split; [reflexivity|]).
    erewrite events_app by (rewrite P; reflexivity).
    split.
    + by rewrite <- app_assoc.
    + apply Forall_app. split; [destruct (is_nil _)|]; by repeat constructor.
  - apply sends_build_legacy in Hs as [s1 B].
    pose proof (Do_paths_legacy c req s) as P. simpl in P.
    rewrite B, Ht, Hb in P.
    destruct (decide (data = "")) as [|_]; [contradiction|].
    fold status target in P.
    destruct (decode data target (objs s)) as [[x' h'] de].
    simpl in Hd. subst de. rewrite Hg in P. destruct P as [cs P].
    eexists _, _,
      ((if is_nil (Restclient.Request.Data req) then []
        else [EvMarshal (Restclient.Request.Data req)]) ++
       [EvSend hReq; EvReadAll hResp;
        EvUnmarshal data (if is_success status then length (cells s)
                          else (length (cells s) + 1)%nat);
        EvUnmarshal data (length (cells s) + 2)%nat]).
    split; [exact P|]. do 2 (split; [reflexivity|]).
    erewrite events_app by (rewrite P; reflexivity).
    split.
    + by rewrite <- app_assoc.
    + apply Forall_app. split; [destruct (is_nil _)|]; by repeat constructor.
Qed.

(** ** Every run *)

(** X10. Whenever [Do] returns, it returns an error exactly when it has
    logged something: every error is logged before it is returned, and
    a run without error leaves no log entry, also when the decode into
    the destination failed and the generic decode went through. *)
Theorem X10_error_iff_logged :
  (forall c (req : Part000.Request.t V) s r err s',
     Part000.Client_Do c req s = Ret (r, err) s' ->
     (err <> None <->
      existsb is_log (events (Part000.Client_Do c req) s) = true)) /\
  (forall c (req : Restclient.Request.t V) s r err s',
     Restclient.Client_Do c req s = Ret (r, err) s' ->
     (err <> None <->
      existsb is_log (events (Restclient.Client_Do c req) s) = true)).
Proof.
  split; intros c req s r err s' Hrun.
  - pose proof (Do_paths c req s) as P. simpl in P.
    destruct (Part000.build _ s) as [[hReq|out] s1|s1].
    + destruct (HttpClient c hReq) as [[hResp|] [terr|]].
      * destruct P as [msg P]. rewrite P in Hrun. injection Hrun as <- <- <-.
        erewrite events_app by (rewrite P; reflexivity).
        rewrite existsb_app. destruct (is_nil _); simpl; split; done.
      * destruct (http.BodyRead hResp) as [data [rerr|]].
        -- destruct P as [msg P]. rewrite P in Hrun.
           injection Hrun as <- <- <-.
           erewrite events_app by (rewrite P; reflexivity).
           rewrite existsb_app. destruct (is_nil _); simpl; split; done.
        -- destruct (decide (data = "")).
           ++ rewrite P in Hrun. injection Hrun as <- <- <-.
              erewrite events_app by (rewrite P; reflexivity).
              rewrite existsb_app. destruct (is_nil _); simpl; split; done.
           ++ destruct (decode data _ (objs s)) as [[x' h'] de].
              destruct P as [cs P]. rewrite P in Hrun.
              injection Hrun as <- <- <-.
              erewrite events_app by (rewrite P; reflexivity).
              rewrite existsb_app.
              destruct de; [destruct (json_decode_any data)|];
                destruct (is_nil _); simpl; split; done.
      * rewrite P in Hrun. discriminate.
      * rewrite P in Hrun. discriminate.
    + destruct P as (e & pre & Hpre & P). rewrite P in Hrun.
      injection Hrun as <- <- <-.
      erewrite events_app by (rewrite P; reflexivity).
      rewrite existsb_app. simpl. rewrite orb_true_r. split; done.
    + rewrite P in Hrun. discriminate.
  - pose proof (Do_paths_legacy c req s) as P. simpl in P.
    destruct (Restclient.build _ _ _ _) as [[hReq|out] s1|s1].
    + destruct (HttpClient c hReq) as [[hResp|] [terr|]].
      * destruct P as [msg P]. rewrite P in Hrun. injection Hrun as <- <- <-.
        erewrite events_app by (rewrite P; reflexivity).
        rewrite existsb_app. destruct (is_nil _); simpl; split; done.
      * destruct (http.BodyRead hResp) as [data [rerr|]].
        -- rewrite P in Hrun. injection Hrun as <- <- <-.
           erewrite events_app by (rewrite P; reflexivity).
           rewrite existsb_app. destruct (is_nil _); simpl; split; done.
        -- destruct (decide (data = "")).
           ++ rewrite P in Hrun. injection Hrun as <- <- <-.
              erewrite events_app by (rewrite P; reflexivity).
              rewrite existsb_app. destruct (is_nil _); simpl; split; done.
           ++ destruct (decode data _ (objs s)) as [[x' h'] de].
              destruct P as [cs P]. rewrite P in Hrun.
              injection Hrun as <- <- <-.
              erewrite events_app by (rewrite P; reflexivity).
              rewrite existsb_app.
              destruct de; [destruct (json_decode_any data)|];
                destruct (is_nil _); simpl; split; done.
      * destruct P as [msg P]. rewrite P in Hrun. injection Hrun as <- <- <-.
        erewrite events_app by (rewrite P; reflexivity).
        rewrite existsb_app. destruct (is_nil _); simpl; split; done.
      * rewrite P in Hrun. discriminate.
    + destruct P as (e & pre & Hpre & P). rewrite P in Hrun.
      injection Hrun as <- <- <-.
      erewrite events_app by (rewrite P; reflexivity).
      rewrite existsb_app. simpl. rewrite orb_true_r. split; done.
    + rewrite P in Hrun. discriminate.
Qed.

(** X11. A destination that is not a pointer (left [nil], or holding a
    plain value) receives the generic value: the slot of the response
    the status selects holds the decoded value, or [nil] when the body
    is [null]; when the text is no JSON at all, the slot stays as it
    was and the error is returned.  The decode writes none of the
    objects. *)
Theorem X11_generic_destination :
  (forall c (req : Part000.Request.t V) s hReq hResp data,
     sends (Part000.Client_Do c req) s hReq ->
     HttpClient c hReq = (Some hResp, None) ->
     http.BodyRead hResp = (data, None) ->
     data <> "" ->
     let ok := is_success (http.StatusCode hResp) in
     let target := if ok then Part000.Request.Result req
                   else Part000.Request.Error (Part000.defaults c req) in
     (forall p, target <> Ptr p) ->
     exists resp s',
       Part000.Client_Do c req s
         = Ret (Some resp,
                if json_null data then None
                else match json_decode_any data with
                     | inl _ => None
                     | inr e => Some e
                     end) s' /\
       (if ok then Part000.Response.Result resp
        else Part000.Response.Error resp)
         = (if json_null data then Nil
            else match json_decode_any data with
                 | inl g => Val g
                 | inr _ => target
                 end) /\
       objs s' = objs s) /\
  (forall c (req : Restclient.Request.t V) s hReq hResp data,
     sends (Restclient.Client_Do c req) s hReq ->
     HttpClient c hReq = (Some hResp, None) ->
     http.BodyRead hResp = (data, None) ->
     data <> "" ->
     let ok := is_success (http.StatusCode hResp) in
     let target := if ok then Restclient.Request.Result req
                   else Restclient.Request.Error req in
     (forall p, target <> Ptr p) ->
     exists resp s',
       Restclient.Client_Do c req s
         = Ret (Some resp,
                if json_null data then None
                else match json_decode_any data with
                     | inl _ => None
                     | inr e => Some e
                     end) s' /\
       (if ok then Restclient.Response.Result resp
        else Restclient.Response.Error resp)
         = (if json_null data then Nil
            else match json_decode_any data with
                 | inl g => Val g
                 | inr _ => target
                 end) /\
       objs s' = objs s).
Proof.
  split; intros c req s hReq hResp data Hs Ht Hb Hne ok target Hp.
  - apply sends_build in Hs as [s1 B].
    pose proof (Do_paths c req s) as P. simpl in P.
    rewrite B, Ht, Hb in P.
    destruct (decide (data = "")) as [|_]; [contradiction|].
    fold ok target in P.
    destruct (json_null data) eqn:Hn.
    + rewrite (decode_null data target (objs s) Hn) in P.
      destruct P as [cs P].
      eexists _, _; (split; [exact P|]); simpl; by destruct ok.
    + rewrite (decode_other data target (objs s) Hn) in P
        by (intros p Ep; by destruct (Hp p)).
      destruct (json_decode_any data) as [g|e]; destruct P as [cs P];
        eexists _, _; (split; [exact P|]); simpl; by destruct ok.
  - apply sends_build_legacy in Hs as [s1 B].
    pose proof (Do_paths_legacy c req s) as P. simpl in P.
    rewrite B, Ht, Hb in P.
    destruct (decide (data = "")) as [|_]; [contradiction|].
    fold ok target in P.
    destruct (json_null data) eqn:Hn.
    + rewrite (decode_null data target (objs s) Hn) in P.
      destruct P as [cs P].
      eexists _, _; (split; [exact P|]); simpl; by destruct ok.
    + rewrite (decode_other data target (objs s) Hn) in P
        by (intros p Ep; by destruct (Hp p)).
      destruct (json_decode_any data) as [g|e]; destruct P as [cs P];
        eexists _, _; (split; [exact P|]); simpl; by destruct ok.
Qed.


(** X13. The client [New] returns, and with it the package-level [Do],
    has no default error destination: the descriptor is left as it is,
    and a body that comes with an error status and meets no error
    destination is put into the response as a generic value, no object
    being written. *)
Theorem X13_default_client (t : http.Client) (req : Part000.Request.t V)
    s hReq hResp data g :
  sends (Part000.Do t req) s hReq ->
  t hReq = (Some hResp, None) ->
  http.BodyRead hResp = (data, None) ->
  data <> "" ->
  is_success (http.StatusCode hResp) = false ->
  is_nil (Part000.Request.Error req) = true ->
  json_decode_any data = inl g ->
  Part000.defaults (New t) req = req /\
  exists s',
    Part000.Do t req s =
      Ret (Some (Part000.Response.mk (http.StatusCode hResp) zeroTime
                   (Part000.Request.Result req) (Val g) data None), None)
          s' /\
    objs s' = objs s.
Proof.
  intros Hs Ht Hb Hne Hst Hnil Hg.
  assert (Hd : Part000.defaults (New t) req = req).
  { unfold Part000.defaults. rewrite Hnil.
    destruct req as [? ? ? ? ? ? ? []]; try discriminate. reflexivity. }
  split; [exact Hd|].
  unfold Part000.Do in *.
  apply sends_build in Hs as [s1 B].
  pose proof (Do_paths (New t) req s) as P. simpl in P.
  rewrite B in P. simpl in P. rewrite Ht, Hb in P.
  destruct (decide (data = "")) as [|_]; [contradiction|].
  rewrite Hst, Hd in P.
  rewrite (decode_other data _ (objs s) (json_null_any data g Hg)) in P
    by (intros p Ep; rewrite Ep in Hnil; discriminate).
  rewrite Hg in P.
  destruct P as [cs P]. eexists. split; [exact P|reflexivity].
Qed.


(** X15. However a run of [Do] ends, it has handed at most one message
    to the transport, read at most one body and decoded at most twice:
    nothing is retried. *)
Theorem X15_single_attempt :
  (forall c (req : Part000.Request.t V) s,
     let evs := events (Part000.Client_Do c req) s in
     (length (List.filter is_send evs) <= 1)%nat /\
     (length (List.filter is_read evs) <= 1)%nat /\
     (length (List.filter is_decode evs) <= 2)%nat) /\
  (forall c (req : Restclient.Request.t V) s,
     let evs := events (Restclient.Client_Do c req) s in
     (length (List.filter is_send evs) <= 1)%nat /\
     (length (List.filter is_read evs) <= 1)%nat /\
     (length (List.filter is_decode evs) <= 2)%nat).
Proof.
  split; intros c req s evs; subst evs.
  - pose proof (Do_paths c req s) as P. simpl in P.
    destruct (Part000.build _ s) as [[hReq|out] s1|s1].
    + destruct (HttpClient c hReq) as [[hResp|] [terr|]].
      * destruct P as [msg P].
        erewrite events_app by (rewrite P; reflexivity).
        rewrite !List.filter_app. destruct (is_nil _); simpl; lia.
      * destruct (http.BodyRead hResp) as [data [rerr|]].
        -- destruct P as [msg P].
           erewrite events_app by (rewrite P; reflexivity).
           rewrite !List.filter_app. destruct (is_nil _); simpl; lia.
        -- destruct (decide (data = "")).
           ++ erewrite events_app by (rewrite P; reflexivity).
              rewrite !List.filter_app. destruct (is_nil _); simpl; lia.
           ++ destruct (decode data _ (objs s)) as [[x' h'] de].
              destruct P as [cs P].
              erewrite events_app by (rewrite P; reflexivity).
              rewrite !List.filter_app.
              destruct de; [destruct (json_decode_any data)|];
                destruct (is_nil _); simpl; lia.
      * erewrite events_app by (rewrite P; reflexivity).
        rewrite !List.filter_app. destruct (is_nil _); simpl; lia.
      * erewrite events_app by (rewrite P; reflexivity).
        rewrite !List.filter_app. destruct (is_nil _); simpl; lia.
    + destruct P as (e & pre & Hpre & P).
      erewrite events_app by (rewrite P; reflexivity).
      rewrite !List.filter_app.
      destruct Hpre as [-> | ->]; [|destruct (is_nil _)]; simpl; lia.
    + erewrite events_app by (rewrite P; reflexivity).
      destruct (is_nil _); simpl; lia.
  - pose proof (Do_paths_legacy c req s) as P. simpl in P.
    destruct (Restclient.build _ _ _ _) as [[hReq|out] s1|s1].
    + destruct (HttpClient c hReq) as [[hResp|] [terr|]].
      * destruct P as [msg P].
        erewrite events_app by (rewrite P; reflexivity).
        rewrite !List.filter_app. destruct (is_nil _); simpl; lia.
      * destruct (http.BodyRead hResp) as [data [rerr|]].
        -- erewrite events_app by (rewrite P; reflexivity).
           rewrite !List.filter_app. destruct (is_nil _); simpl; lia.
        -- destruct (decide (data = "")).
           ++ erewrite events_app by (rewrite P; reflexivity).
              rewrite !List.filter_app. destruct (is_nil _); simpl; lia.
           ++ destruct (decode data _ (objs s)) as [[x' h'] de].
              destruct P as [cs P].
              erewrite events_app by (rewrite P; reflexivity).
              rewrite !List.filter_app.
              destruct de; [destruct (json_decode_any data)|];
                destruct (is_nil _); simpl; lia.
      * destruct P as [msg P].
        erewrite events_app by (rewrite P; reflexivity).
        rewrite !List.filter_app. destruct (is_nil _); simpl; lia.
      * erewrite events_app by (rewrite P; reflexivity).
        rewrite !List.filter_app. destruct (is_nil _); simpl; lia.
    + destruct P as (e & pre & Hpre & P).
      erewrite events_app by (rewrite P; reflexivity).
      rewrite !List.filter_app.
      destruct Hpre as [-> | ->]; [|destruct (is_nil _)]; simpl; lia.
    + erewrite events_app by (rewrite P; reflexivity).
      destruct (is_nil _); simpl; lia.
Qed.

(** X16. What [Do] returns in [part_000]: never no response and no
    error at once; a response only when the transport has answered
    without error, and then with the status of that answer and a nil
    back-reference to the descriptor, the field [Request] being
    assigned nowhere. *)
Theorem X16_result_shape c (req : Part000.Request.t V) s r err s' :
  Part000.Client_Do c req s = Ret (r, err) s' ->
  match r with
  | None => err <> None
  | Some resp =>
      Part000.Response.Request resp = None /\
      exists hReq hResp,
        sends (Part000.Client_Do c req) s hReq /\
        HttpClient c hReq = (Some hResp, None) /\
        Part000.Response.Status resp = http.StatusCode hResp
  end.
Proof.
  intros Hrun.
  pose proof (Do_paths c req s) as P. simpl in P.
  destruct (Part000.build _ s) as [[hReq|out] s1|s1] eqn:B.
  - assert (Hs : sends (Part000.Client_Do c req) s hReq)
      by (apply sends_build; eauto).
    destruct (HttpClient c hReq) as [[hResp|] [terr|]] eqn:Ht.
    + destruct P as [msg P]. rewrite P in Hrun. by injection Hrun as <- <- <-.
    + destruct (http.BodyRead hResp) as [data [rerr|]].
      * destruct P as [msg P]. rewrite P in Hrun.
        injection Hrun as <- <- <-. simpl. eauto 6.
      * destruct (decide (data = "")).
        -- rewrite P in Hrun. injection Hrun as <- <- <-. simpl. eauto 6.
        -- destruct (decode data _ (objs s)) as [[x' h'] de].
           destruct P as [cs P]. rewrite P in Hrun.
           injection Hrun as <- <- <-. simpl. eauto 6.
    + rewrite P in Hrun. discriminate.
    + rewrite P in Hrun. discriminate.
  - destruct P as (e & pre & _ & P). rewrite P in Hrun.
    by injection Hrun as <- <- <-.
  - rewrite P in Hrun. discriminate.
Qed.

(** X17. What [Do] returns in [restclient.go]: always a response, also
    with an error, and always with the descriptor as back-reference. *)
Theorem X17_result_shape_legacy c (req : Restclient.Request.t V) s r err s' :
  Restclient.Client_Do c req s = Ret (r, err) s' ->
  exists resp, r = Some resp /\ Restclient.Response.Request resp = Some req.
Proof.
  intros Hrun.
  pose proof (Do_paths_legacy c req s) as P. simpl in P.
  destruct (Restclient.build _ _ _ _) as [[hReq|out] s1|s1].
  - destruct (HttpClient c hReq) as [[hResp|] [terr|]].
    + destruct P as [msg P]. rewrite P in Hrun.
      injection Hrun as <- <- <-. eauto.
    + destruct (http.BodyRead hResp) as [data [rerr|]].
      * rewrite P in Hrun. injection Hrun as <- <- <-. eauto.
      * destruct (decide (data = "")).
        -- rewrite P in Hrun. injection Hrun as <- <- <-. eauto.
        -- destruct (decode data _ (objs s)) as [[x' h'] de].
           destruct P as [cs P]. rewrite P in Hrun.
           injection Hrun as <- <- <-. eauto.
    + destruct P as [msg P]. rewrite P in Hrun.
      injection Hrun as <- <- <-. eauto.
    + rewrite P in Hrun. discriminate.
  - destruct P as (e & pre & _ & P). rewrite P in Hrun.
    injection Hrun as <- <- <-. eauto.
  - rewrite P in Hrun. discriminate.
Qed.

(** ** The transport fails *)

(** X22. In [restclient.go] a failing transport never makes [Do]
    panic, with or without a response beside the error: [Do] logs once,
    reads no body, writes no object and returns the error together
    with the response under construction (status 0, empty text, the
    slots of the descriptor). *)
Theorem X22_transport_failure_legacy c (req : Restclient.Request.t V) s
    hReq hResp err :
  sends (Restclient.Client_Do c req) s hReq ->
  HttpClient c hReq = (hResp, Some err) ->
  exists s' msg,
    Restclient.Client_Do c req s =
      Ret (Some (Restclient.Response.mk (Some req) 0
                   (Restclient.Request.Result req)
                   (Restclient.Request.Error req) ""), Some err) s' /\
    objs s' = objs s /\
    last (events (Restclient.Client_Do c req) s)
      = Some (EvLog [LStr msg; LErr err]) /\
    Forall (fun ev => is_read ev = false)
      (events (Restclient.Client_Do c req) s).
Proof.
  intros Hs Ht. apply sends_build_legacy in Hs as [s1 B].
  pose proof (Do_paths_legacy c req s) as P. simpl in P.
  rewrite B, Ht in P.
  assert (exists msg,
    Restclient.Client_Do c req s =
      Ret (Some (Restclient.Response.mk (Some req) 0
                   (Restclient.Request.Result req)
                   (Restclient.Request.Error req) ""), Some err)
          (mkState (objs s)
             (cells s ++ [Restclient.Request.Result req;
                          Restclient.Request.Error req])
             (trace s ++
                (if is_nil (Restclient.Request.Data req) then []
                 else [EvMarshal (Restclient.Request.Data req)]) ++
                [EvSend hReq; EvLog [LStr msg; LErr err]]))) as [msg P'].
  { destruct hResp; exact P. }
  eexists _, msg. split; [exact P'|]. split; [reflexivity|].
  erewrite events_app by (rewrite P'; reflexivity).
  split.
  - by rewrite last_app_cons.
  - apply Forall_app. split; [destruct (is_nil _)|]; by repeat constructor.
Qed.

(** X23. In [part_000] a transport that fails and still hands back a
    response (as it does when it gives up on a redirect) makes [Do]
    return the error alone: [complain] writes one log entry, no body is
    read, nothing is decoded and none of the objects that interface
    values point to is written. *)
Theorem X23_transport_failure_with_response c (req : Part000.Request.t V) s
    hReq hResp err :
  sends (Part000.Client_Do c req) s hReq ->
  HttpClient c hReq = (Some hResp, Some err) ->
  exists s' msg,
    Part000.Client_Do c req s = Ret (None, Some err) s' /\
    objs s' = objs s /\
    last (events (Part000.Client_Do c req) s) = Some (EvLog [LStr msg]) /\
    Forall (fun ev => is_read ev = false /\ is_decode ev = false)
      (events (Part000.Client_Do c req) s).
Proof.
  intros Hs Ht. apply sends_build in Hs as [s1 B].
  pose proof (Do_paths c req s) as P. simpl in P.
  rewrite B, Ht in P. destruct P as [msg P].
  eexists _, msg. split; [exact P|]. split; [reflexivity|].
  erewrite events_app by (rewrite P; reflexivity).
  split.
  - by rewrite last_app_cons.
  - apply Forall_app. split; [destruct (is_nil _)|]; by repeat constructor.
Qed.

(** ** [unmarshal] and the parameter loop *)

(** X18. What [unmarshal] leaves behind is what its first
    [json.Unmarshal] leaves behind, whether that one failed or not: the
    cell it was given, the objects, and every other cell that was
    there.  The second decode decides the returned error and nothing
    else. *)
Theorem X18_unmarshal_effect data (v : nat) s (x : any V) :
  cells s !! v = Some x ->
  exists s',
    unmarshal data v s
      = Ret (match (decode data x (objs s)).2 with
             | None => None
             | Some _ => match json_decode_any data with
                         | inl _ => None
                         | inr e2 => Some e2
                         end
             end) s' /\
    objs s' = (decode data x (objs s)).1.2 /\
    cells s' !! v = Some (decode data x (objs s)).1.1 /\
    (forall w, w <> v -> (w < length (cells s))%nat ->
               cells s' !! w = cells s !! w).
Proof.
  intros Hv. pose proof (unmarshal_run data v s x Hv) as U.
  pose proof (lookup_lt_Some _ _ _ Hv) as Hlt.
  destruct (decode data x (objs s)) as [[x' h'] e]. simpl.
  destruct e as [e|]; [destruct (json_decode_any data) as [g|e2]|];
    rewrite U; eexists; (split; [reflexivity|]); simpl;
    (split; [reflexivity|]); split.
  - rewrite lookup_app_l by (by rewrite length_insert).
    by apply list_lookup_insert_eq.
  - intros w Hw Hl. rewrite lookup_app_l by (by rewrite length_insert).
    by apply list_lookup_insert_ne.
  - rewrite lookup_app_l by (by rewrite length_insert).
    by apply list_lookup_insert_eq.
  - intros w Hw Hl. rewrite lookup_app_l by (by rewrite length_insert).
    by apply list_lookup_insert_ne.
  - by apply list_lookup_insert_eq.
  - intros w Hw Hl. by apply list_lookup_insert_ne.
Qed.

(** X19. Go visits the entries of [req.Params] in an order of its own
    choosing: for any two orders of the same entries the loop ends in
    the same [Values]. *)
Theorem X19_loop_order (l1 l2 : list (string * string))
    (vals : url.Values) (ps : gmap string string) :
  l1 ≡ₚ map_to_list ps ->
  l2 ≡ₚ map_to_list ps ->
  rangeSet_in l1 vals = rangeSet_in l2 vals.
Proof.
  intros H1 H2.
  by rewrite (rangeSet_any_order l1 vals ps H1),
             (rangeSet_any_order l2 vals ps H2).
Qed.

(** X20. For GET, a parameter map that is empty but not nil still
    rewrites the query string, as the encoding of what the raw URL had;
    a nil map leaves the URL as parsed. *)
Theorem X20_empty_params (u : url.URL) :
  withParams GET (Some ∅) u = url.setRawQuery u (url_Encode (Query u)) /\
  withParams GET None u = u.
Proof.
  split; [|reflexivity].
  unfold withParams, rangeSet. rewrite decide_True by reflexivity.
  by rewrite map_fold_empty.
Qed.

(** ** Two calls on one client *)


End Further.
(** * The statements at concrete inputs *)

Import World.

(** C1, at a status 200 with body [true] and an integer as success
    destination: no error, and the response still points to the
    integer. *)
Lemma C1_witness :
  exists resp s',
    Part000.Client_Do (New (reply 200 "true")) (get_items p1 p2) mem
      = Ret (Some resp, None) s' /\
    Part000.Response.Result resp = p1 /\
    Part000.Response.Error resp = p2 /\
    objs s' = <[1%positive := JNum 0]> (objs mem) /\
    cells s' = [p1; p2; Val (JBool true)].
Proof.
  apply (proj1 (proj2 (C1_generic_value_dropped (V:=jv)))
           (New (reply 200 "true")) (get_items p1 p2) mem get_items_msg
           (http.mkResponse 200 ("true", None) (Some get_items_msg)) "true"
           1%positive (JNum 0) (JNum 0)
           "json: cannot unmarshal bool into Go value" (JBool true)).
  - apply sends_build; eexists; vm_compute; reflexivity.
  - reflexivity.
  - reflexivity.
  - discriminate.
  - reflexivity.
  - reflexivity.
  - reflexivity.
  - reflexivity.
Defined.



(** C3, for a GET with [q=shoes] on a raw URL that has [q=hats]. *)
Lemma C3_witness :
  (exists merged,
     withParams GET (Some {["q" := "shoes"]})
       (url.mkURL "" "" "" "http://api.test/items" "q=hats&page=2" "")
     = url.setRawQuery
         (url.mkURL "" "" "" "http://api.test/items" "q=hats&page=2" "")
         (url_Encode merged) /\
     url.RawQuery
       (withParams GET (Some {["q" := "shoes"]})
          (url.mkURL "" "" "" "http://api.test/items" "q=hats&page=2" ""))
     = url_Encode merged /\
     (forall k v, ({["q" := "shoes"]} : gmap string string) !! k = Some v ->
                  merged !! k = Some [v]) /\
     (forall k, ({["q" := "shoes"]} : gmap string string) !! k = None ->
        merged !! k =
          Query (url.mkURL "" "" "" "http://api.test/items"
                   "q=hats&page=2" "") !! k)) /\
  (exists u,
     url_Parse "http://api.test/items?q=hats&page=2" = inl u /\
     http.URL get_items_msg =
       url_String (withParams GET (Some {["q" := "shoes"]}) u)).
Proof.
  split.
  - apply (proj1 (proj1 (C3_query_params (V:=jv)) GET
             (Some {["q" := "shoes"]})
             (url.mkURL "" "" "" "http://api.test/items" "q=hats&page=2" ""))
             eq_refl {["q" := "shoes"]} eq_refl).
  - apply (proj1 (proj2 (C3_query_params (V:=jv)))
             (New (reply 404 "17")) (get_items p1 p2) mem get_items_msg).
    apply sends_build; eexists; vm_compute; reflexivity.
Defined.

(** C4, for a POST with the payload [7], in both files. *)
Lemma C4_witness :
  (exists b,
     encode_any (objs mem) (Val (JNum 7)) = inl b /\
     http.Body post_item_msg = Some b /\
     http.Hdr post_item_msg !! "Content-Type" = Some ["application/json"]) /\
  (exists b,
     encode_any (objs mem) (Val (JNum 7)) = inl b /\
     http.Body post_item_msg = Some b /\
     http.Hdr post_item_msg !! "Content-Type" = Some ["application/json"]).
Proof.
  split.
  - apply (proj1 (C4_payload_body (V:=jv)) (New (reply 404 "17"))
             (post_item POST) mem post_item_msg).
    apply sends_build; eexists; vm_compute; reflexivity.
  - apply (proj2 (C4_payload_body (V:=jv)) (New (reply 404 "17"))
             (post_item_legacy POST) mem post_item_msg).
    apply sends_build_legacy; eexists; vm_compute; reflexivity.
Defined.

(** C5, for a transport that cannot connect. *)
Lemma C5_witness :
  (exists s',
     Part000.Client_Do (New refused) (get_items p1 p2) mem = Panic s') /\
  last (events (Part000.Client_Do (New refused) (get_items p1 p2)) mem)
    = Some (EvSend get_items_msg).
Proof.
  apply (C5_transport_failure_panics (V:=jv) (New refused) (get_items p1 p2)
           mem get_items_msg "dial tcp: connection refused").
  - apply sends_build; eexists; vm_compute; reflexivity.
  - reflexivity.
Defined.

(** C6, at a status 204 with an empty body, in both files. *)
Lemma C6_witness :
  (exists s',
     Part000.Client_Do (New (reply 204 "")) (get_items p1 p2) mem =
       Ret (Some (Part000.Response.mk 204 zeroTime p1 p2 "" None), None) s' /\
     objs s' = objs mem /\
     Forall (fun ev => is_decode ev = false)
       (events (Part000.Client_Do (New (reply 204 "")) (get_items p1 p2))
          mem)) /\
  (exists s',
     Restclient.Client_Do (New (reply 204 "")) (get_items_legacy p1 p2) mem =
       Ret (Some (Restclient.Response.mk (Some (get_items_legacy p1 p2))
                    204 p1 p2 ""), None) s' /\
     objs s' = objs mem /\
     Forall (fun ev => is_decode ev = false)
       (events (Restclient.Client_Do (New (reply 204 ""))
                  (get_items_legacy p1 p2)) mem)).
Proof.
  split.
  - apply (proj1 (C6_empty_body (V:=jv)) (New (reply 204 ""))
             (get_items p1 p2) mem get_items_msg
             (http.mkResponse 204 ("", None) (Some get_items_msg))).
    + apply sends_build; eexists; vm_compute; reflexivity.
    + reflexivity.
    + reflexivity.
  - apply (proj2 (C6_empty_body (V:=jv)) (New (reply 204 ""))
             (get_items_legacy p1 p2) mem get_items_msg
             (http.mkResponse 204 ("", None) (Some get_items_msg))).
    + apply sends_build_legacy; eexists; vm_compute; reflexivity.
    + reflexivity.
    + reflexivity.
Defined.

(** C8, for a transport that cannot connect, and for a payload sent
    with a method [http.NewRequest] refuses, in both files. *)
Lemma C8_witness :
  (exists s',
     Part000.Client_Do (New refused) (get_items p1 p2) mem = Panic s') /\
  (exists s',
     Part000.Client_Do (New (reply 200 "")) (post_item "BAD METHOD") mem
       = Panic s') /\
  (exists s',
     Restclient.Client_Do (New (reply 200 ""))
       (post_item_legacy "BAD METHOD") mem = Panic s').
Proof.
  split; [|split].
  - apply (proj1 (C8_Do_panics (V:=jv)) (New refused) (get_items p1 p2)
             mem get_items_msg "dial tcp: connection refused").
    + apply sends_build; eexists; vm_compute; reflexivity.
    + reflexivity.
  - apply (proj1 (proj2 (C8_Do_panics (V:=jv))) (New (reply 200 ""))
             (post_item "BAD METHOD") mem
             (url.mkURL "" "" "" "http://api.test/items" "" "") "7"
             "net/http: invalid method");
      reflexivity.
  - apply (proj2 (proj2 (C8_Do_panics (V:=jv))) (New (reply 200 ""))
             (post_item_legacy "BAD METHOD") mem
             (url.mkURL "" "" "" "http://api.test/items" "" "") "7"
             "net/http: invalid method");
      reflexivity.
Defined.

(** C10, at a status 404 with body [17]. *)
Lemma C10_witness :
  Part000.Response.Timestamp
    (Part000.Response.mk 404 zeroTime p1 p2 "17" None) = zeroTime.
Proof.
  eapply (C10_timestamp_zero (V:=jv) (New (reply 404 "17"))
            (get_items p1 p2) mem).
  vm_compute. reflexivity.
Defined.

(** C7, for a descriptor whose headers hold an [Accept] of the caller
    and a token: the message is the one sent without them, in both
    files. *)
Lemma C7_witness :
  sends (Part000.Client_Do (New (reply 204 ""))
           (Part000.Request.setHeaders (get_items p1 p2)
              (Some {["Accept" := ["text/plain"]; "X-Token" := ["abc"]]})))
    mem get_items_msg /\
  http.Hdr get_items_msg !! "X-Token" = None /\
  http.Hdr get_items_msg !! "Accept" = Some ["application/json"].
Proof.
  split; [|split; reflexivity].
  unfold sends, events.
  rewrite (C7_headers_ignored (V:=jv) (New (reply 204 "")) (get_items p1 p2)
             (Some {["Accept" := ["text/plain"]; "X-Token" := ["abc"]]}) mem).
  apply sends_build; eexists; vm_compute; reflexivity.
Defined.

Example headers_dropped_legacy :
  sends (Restclient.Client_Do (New (reply 204 ""))
           (Restclient.Request.setHeaders (get_items_legacy p1 p2)
              (Some {["Accept" := ["text/plain"]; "X-Token" := ["abc"]]})))
    mem get_items_msg.
Proof. apply sends_build_legacy; eexists; vm_compute; reflexivity. Qed.

(** C9, for a client whose default error destination is the second
    integer, a descriptor without error destination, and a status 404
    with body [17]: [restclient.go] leaves the integer alone and puts a
    generic value into the response. *)
Lemma C9_witness :
  exists s',
    Restclient.Client_Do (mkClient (reply 404 "17") p2)
      (get_items_legacy p1 Nil) mem =
      Ret (Some (Restclient.Response.mk (Some (get_items_legacy p1 Nil))
                   404 p1 (Val (JNum 17)) "17"), None) s' /\
    objs s' = objs mem.
Proof.
  rewrite (C9_default_error_unused (V:=jv) (New (reply 404 "17")) p2
             (get_items_legacy p1 Nil) mem).
  eexists. split; vm_compute; reflexivity.
Defined.

(** The same call in [part_000]: the integer is decoded into. *)
Example default_error_part000 :
  exists s',
    Part000.Client_Do (mkClient (reply 404 "17") p2)
      (get_items p1 Nil) mem =
      Ret (Some (Part000.Response.mk 404 zeroTime p1 p2 "17" None), None) s' /\
    objs s' !! 2%positive = Some (JNum 17).
Proof. eexists. split; vm_compute; reflexivity. Qed.

(** A connection that is refused, in [restclient.go]: the response
    under construction comes back with the error. *)
Example refused_legacy :
  exists s',
    Restclient.Client_Do (New refused) (get_items_legacy p1 p2) mem =
      Ret (Some (Restclient.Response.mk (Some (get_items_legacy p1 p2))
                   0 p1 p2 ""), Some "dial tcp: connection refused") s'.
Proof. eexists. vm_compute. reflexivity. Qed.

(** A transport that gives up on a redirect, in [part_000]: the error
    comes back alone, after the entry [complain] writes. *)
Example redirect_stopped_part000 :
  exists s',
    Part000.Client_Do (New redirect_stopped) (get_items p1 p2) mem =
      Ret (None, Some "stopped after 10 redirects") s' /\
    last (trace s') =
      Some (EvLog [LStr
        ("Error executing REST request:" +:+ LF +:+
         "    --> Called from main.go:42" +:+ LF +:+
         "    --> Got status 302" +:+ LF +:+
         "    --> stopped after 10 redirects")]).
Proof. eexists. split; vm_compute; reflexivity. Qed.

(** * The further properties at concrete inputs *)

Import Floats Cases.

(** X1, for a raw URL with a blank in it. *)
Lemma X1_witness :
  Part000.Client_Do (New (reply 200 "17")) bad_url mem =
    Ret (None, Some "parse: invalid character in URL")
        (mkState (objs mem) (cells mem)
           (trace mem ++ [EvLog [LErr "parse: invalid character in URL"]])) /\
  Restclient.Client_Do (New (reply 200 "17")) bad_url_legacy mem =
    Ret (Some (Restclient.Response.mk (Some bad_url_legacy) 0 p1 p2 ""),
         Some "parse: invalid character in URL")
        (mkState (objs mem) (cells mem ++ [p1; p2])
           (trace mem ++ [EvLog [LErr "parse: invalid character in URL"]])).
Proof.
  split.
  - apply (proj1 (X1_url_parse_failure (V:=jv)) (New (reply 200 "17"))
             bad_url mem "parse: invalid character in URL").
    reflexivity.
  - apply (proj2 (X1_url_parse_failure (V:=jv)) (New (reply 200 "17"))
             bad_url_legacy mem "parse: invalid character in URL").
    reflexivity.
Defined.

(** X2, for the payload [NaN]. *)
Lemma X2_witness :
  Part000.Client_Do (New (reply 200 "17")) post_nan Floats.empty =
    Ret (None, Some "json: unsupported value: NaN")
        (mkState (objs Floats.empty) (cells Floats.empty)
           (trace Floats.empty ++
              [EvMarshal (Val NaN);
               EvLog [LErr "json: unsupported value: NaN"]])) /\
  Restclient.Client_Do (New (reply 200 "17")) post_nan_legacy Floats.empty =
    Ret (Some (Restclient.Response.mk (Some post_nan_legacy) 0 Nil Nil ""),
         Some "json: unsupported value: NaN")
        (mkState (objs Floats.empty) (cells Floats.empty ++ [Nil; Nil])
           (trace Floats.empty ++
              [EvMarshal (Val NaN);
               EvLog [LErr "json: unsupported value: NaN"]])).
Proof.
  split.
  - apply (proj1 (X2_marshal_failure (V:=num)) (New (reply 200 "17"))
             post_nan Floats.empty
             (url.mkURL "" "" "" "http://api.test/items" "" "")
             "json: unsupported value: NaN"); reflexivity.
  - apply (proj2 (X2_marshal_failure (V:=num)) (New (reply 200 "17"))
             post_nan_legacy Floats.empty
             (url.mkURL "" "" "" "http://api.test/items" "" "")
             "json: unsupported value: NaN"); reflexivity.
Defined.

(** X3, for a method with a blank in it and no payload. *)
Lemma X3_witness :
  Part000.Client_Do (New (reply 200 "17")) bad_method mem =
    Ret (None, Some "net/http: invalid method")
        (mkState (objs mem) (cells mem)
           (trace mem ++ [EvLog [LErr "net/http: invalid method"]])) /\
  Restclient.Client_Do (New (reply 200 "17")) bad_method_legacy mem =
    Ret (Some (Restclient.Response.mk (Some bad_method_legacy) 0 p1 p2 ""),
         Some "net/http: invalid method")
        (mkState (objs mem) (cells mem ++ [p1; p2])
           (trace mem ++ [EvLog [LErr "net/http: invalid method"]])).
Proof.
  split.
  - apply (proj1 (X3_new_request_failure (V:=jv)) (New (reply 200 "17"))
             bad_method mem
             (url.mkURL "" "" "" "http://api.test/items" "" "")
             "net/http: invalid method"); reflexivity.
  - apply (proj2 (X3_new_request_failure (V:=jv)) (New (reply 200 "17"))
             bad_method_legacy mem
             (url.mkURL "" "" "" "http://api.test/items" "" "")
             "net/http: invalid method"); reflexivity.
Defined.

(** X4, for the GET of [World] and for a descriptor that names no
    method, in both files. *)
Lemma X4_witness :
  (http.Method get_items_msg = GET /\
   http.Hdr get_items_msg !! "Accept" = Some ["application/json"]) /\
  (http.Method get_items_msg = GET /\
   http.Hdr get_items_msg !! "Accept" = Some ["application/json"]) /\
  (Part000.Request.Method no_method = "" /\
   sends (Part000.Client_Do (New (reply 404 "17")) no_method) mem
     no_method_msg /\
   http.Method no_method_msg = "GET") /\
  (Restclient.Request.Method no_method_legacy = "" /\
   sends (Restclient.Client_Do (New (reply 404 "17")) no_method_legacy) mem
     no_method_msg /\
   http.Method no_method_msg = "GET").
Proof.
  assert (S1 : sends (Part000.Client_Do (New (reply 404 "17")) no_method)
                 mem no_method_msg)
    by (apply sends_build; eexists; vm_compute; reflexivity).
  assert (S2 : sends (Restclient.Client_Do (New (reply 404 "17"))
                        no_method_legacy) mem no_method_msg)
    by (apply sends_build_legacy; eexists; vm_compute; reflexivity).
  split; [|split; [|split]].
  - apply (proj1 (X4_method_and_accept (V:=jv)) (New (reply 404 "17"))
             (get_items p1 p2) mem get_items_msg).
    apply sends_build; eexists; vm_compute; reflexivity.
  - apply (proj2 (X4_method_and_accept (V:=jv)) (New (reply 404 "17"))
             (get_items_legacy p1 p2) mem get_items_msg).
    apply sends_build_legacy; eexists; vm_compute; reflexivity.
  - split; [reflexivity|]. split; [exact S1|].
    exact (proj1 (proj1 (X4_method_and_accept (V:=jv)) (New (reply 404 "17"))
                    no_method mem no_method_msg S1)).
  - split; [reflexivity|]. split; [exact S2|].
    exact (proj1 (proj2 (X4_method_and_accept (V:=jv)) (New (reply 404 "17"))
                    no_method_legacy mem no_method_msg S2)).
Defined.

(** X5, for a user without password, and for no user. *)
Lemma X5_witness :
  http.Hdr as_ann_msg !! "Authorization" = Some ["Basic ann:"] /\
  http.Hdr get_items_msg !! "Authorization" = None.
Proof.
  split.
  - rewrite (X5_basic_auth (V:=jv) (New (reply 404 "17")) as_ann mem
               as_ann_msg)
      by (apply sends_build; eexists; vm_compute; reflexivity).
    reflexivity.
  - rewrite (X5_basic_auth (V:=jv) (New (reply 404 "17")) (get_items p1 p2)
               mem get_items_msg)
      by (apply sends_build; eexists; vm_compute; reflexivity).
    reflexivity.
Defined.

(** X6, for the GET of [World] and a header of the caller's liking. *)
Lemma X6_witness :
  http.Hdr get_items_msg !! "X-Token" = None /\
  http.Hdr get_items_msg !! "Content-Type" = None.
Proof.
  destruct (proj1 (X6_no_other_header (V:=jv)) (New (reply 404 "17"))
              (get_items p1 p2) mem get_items_msg) as [H1 H2].
  - apply sends_build; eexists; vm_compute; reflexivity.
  - split.
    + apply H1; discriminate.
    + apply H2. reflexivity.
Defined.

(** X7, for a body that breaks off, in both files. *)
Lemma X7_witness :
  (exists s' msg,
     Part000.Client_Do (New truncated) (get_items p1 p2) mem =
       Ret (Some (Part000.Response.mk 200 zeroTime p1 p2 "" None),
            Some "unexpected EOF") s' /\
     objs s' = objs mem /\
     Forall (fun ev => is_decode ev = false)
       (events (Part000.Client_Do (New truncated) (get_items p1 p2)) mem) /\
     last (events (Part000.Client_Do (New truncated) (get_items p1 p2)) mem)
       = Some (EvLog [LStr msg])) /\
  (exists s',
     Restclient.Client_Do (New truncated) (get_items_legacy p1 p2) mem =
       Ret (Some (Restclient.Response.mk (Some (get_items_legacy p1 p2))
                    200 p1 p2 ""), Some "unexpected EOF") s' /\
     objs s' = objs mem /\
     Forall (fun ev => is_decode ev = false)
       (events (Restclient.Client_Do (New truncated)
                  (get_items_legacy p1 p2)) mem) /\
     last (events (Restclient.Client_Do (New truncated)
                     (get_items_legacy p1 p2)) mem)
       = Some (EvLog [LErr "unexpected EOF"])).
Proof.
  split.
  - apply (proj1 (X7_body_read_failure (V:=jv)) (New truncated)
             (get_items p1 p2) mem get_items_msg
             (http.mkResponse 200 ("tru", Some "unexpected EOF")
                (Some get_items_msg)) "tru" "unexpected EOF").
    + apply sends_build; eexists; vm_compute; reflexivity.
    + reflexivity.
    + reflexivity.
  - apply (proj2 (X7_body_read_failure (V:=jv)) (New truncated)
             (get_items_legacy p1 p2) mem get_items_msg
             (http.mkResponse 200 ("tru", Some "unexpected EOF")
                (Some get_items_msg)) "tru" "unexpected EOF").
    + apply sends_build_legacy; eexists; vm_compute; reflexivity.
    + reflexivity.
    + reflexivity.
Defined.

(** X8, at a status 404 with body [17], in both files. *)
Lemma X8_witness :
  (exists resp err s',
     Part000.Client_Do (New (reply 404 "17")) (get_items p1 p2) mem
       = Ret (Some resp, err) s' /\
     Part000.Response.Status resp = 404 /\
     Part000.Response.RawText resp = "17") /\
  (exists resp err s',
     Restclient.Client_Do (New (reply 404 "17")) (get_items_legacy p1 p2) mem
       = Ret (Some resp, err) s' /\
     Restclient.Response.Status resp = 404 /\
     Restclient.Response.RawText resp = "17").
Proof.
  split.
  - apply (proj1 (X8_status_and_text (V:=jv)) (New (reply 404 "17"))
             (get_items p1 p2) mem get_items_msg
             (http.mkResponse 404 ("17", None) (Some get_items_msg)) "17").
    + apply sends_build; eexists; vm_compute; reflexivity.
    + reflexivity.
    + reflexivity.
  - apply (proj2 (X8_status_and_text (V:=jv)) (New (reply 404 "17"))
             (get_items_legacy p1 p2) mem get_items_msg
             (http.mkResponse 404 ("17", None) (Some get_items_msg)) "17").
    + apply sends_build_legacy; eexists; vm_compute; reflexivity.
    + reflexivity.
    + reflexivity.
Defined.

(** X9, at a status 500 with the body [oops], in both files. *)
Lemma X9_witness :
  (exists resp s' pre,
     Part000.Client_Do (New (reply 500 "oops")) (get_items p1 p2) mem
       = Ret (Some resp,
              Some "invalid character looking for beginning of value") s' /\
     Part000.Response.Status resp = 500 /\
     Part000.Response.RawText resp = "oops" /\
     events (Part000.Client_Do (New (reply 500 "oops")) (get_items p1 p2))
       mem
       = pre ++ decode_log 500
                  "invalid character looking for beginning of value" "oops"
                  (http.mkResponse 500 ("oops", None) (Some get_items_msg)) /\
     Forall (fun ev => is_log ev = false) pre) /\
  (exists resp s' pre,
     Restclient.Client_Do (New (reply 500 "oops")) (get_items_legacy p1 p2)
       mem
       = Ret (Some resp,
              Some "invalid character looking for beginning of value") s' /\
     Restclient.Response.Status resp = 500 /\
     Restclient.Response.RawText resp = "oops" /\
     events (Restclient.Client_Do (New (reply 500 "oops"))
               (get_items_legacy p1 p2)) mem
       = pre ++ [EvLog [LResponse 500 (Restclient.Response.Result resp)
                          (Restclient.Response.Error resp) "oops"];
                 EvLog [LErr
                   "invalid character looking for beginning of value"]] /\
     Forall (fun ev => is_log ev = false) pre).
Proof.
  split.
  - apply (proj1 (X9_decode_failure (V:=jv)) (New (reply 500 "oops"))
             (get_items p1 p2) mem get_items_msg
             (http.mkResponse 500 ("oops", None) (Some get_items_msg))
             "oops" "invalid character looking for beginning of value"
             "invalid character looking for beginning of value").
    + apply sends_build; eexists; vm_compute; reflexivity.
    + reflexivity.
    + reflexivity.
    + discriminate.
    + reflexivity.
    + reflexivity.
  - apply (proj2 (X9_decode_failure (V:=jv)) (New (reply 500 "oops"))
             (get_items_legacy p1 p2) mem get_items_msg
             (http.mkResponse 500 ("oops", None) (Some get_items_msg))
             "oops" "invalid character looking for beginning of value"
             "invalid character looking for beginning of value").
    + apply sends_build_legacy; eexists; vm_compute; reflexivity.
    + reflexivity.
    + reflexivity.
    + discriminate.
    + reflexivity.
    + reflexivity.
Defined.

(** X10, for a raw URL that does not parse (an error, and a log entry)
    in [part_000] and for a status 404 with body [17] (neither) in
    [restclient.go]. *)
Lemma X10_witness :
  (Some "parse: invalid character in URL" <> None <->
   existsb is_log
     (events (Part000.Client_Do (New (reply 200 "17")) bad_url) mem)
   = true) /\
  ((None : option error) <> None <->
   existsb is_log
     (events (Restclient.Client_Do (New (reply 404 "17"))
                (get_items_legacy p1 p2)) mem)
   = true).
Proof.
  split.
  - eapply (proj1 (X10_error_iff_logged (V:=jv)) (New (reply 200 "17"))
              bad_url mem).
    vm_compute. reflexivity.
  - eapply (proj2 (X10_error_iff_logged (V:=jv)) (New (reply 404 "17"))
              (get_items_legacy p1 p2) mem).
    vm_compute. reflexivity.
Defined.

(** X11, for a descriptor with no destinations at all, at a status 200
    with body [17], in both files; and, in [part_000], for a success
    destination that holds a plain value, with body [null]. *)
Lemma X11_witness :
  (exists resp s',
     Part000.Client_Do (New (reply 200 "17")) (get_items Nil Nil) mem
       = Ret (Some resp, None) s' /\
     Part000.Response.Result resp = Val (JNum 17) /\
     objs s' = objs mem) /\
  (exists resp s',
     Part000.Client_Do (New (reply 200 "null"))
       (get_items (Val (JBool true)) Nil) mem
       = Ret (Some resp, None) s' /\
     Part000.Response.Result resp = Nil /\
     objs s' = objs mem) /\
  (exists resp s',
     Restclient.Client_Do (New (reply 200 "17")) (get_items_legacy Nil Nil)
       mem
       = Ret (Some resp, None) s' /\
     Restclient.Response.Result resp = Val (JNum 17) /\
     objs s' = objs mem).
Proof.
  split; [|split].
  - destruct (proj1 (X11_generic_destination (V:=jv)) (New (reply 200 "17"))
                (get_items Nil Nil) mem get_items_msg
                (http.mkResponse 200 ("17", None) (Some get_items_msg)) "17")
      as (resp & s' & R & Sl & Ho).
    + apply sends_build; eexists; vm_compute; reflexivity.
    + reflexivity.
    + reflexivity.
    + discriminate.
    + discriminate.
    + exists resp, s'. split; [exact R|]. split; [exact Sl|exact Ho].
  - destruct (proj1 (X11_generic_destination (V:=jv))
                (New (reply 200 "null")) (get_items (Val (JBool true)) Nil)
                mem get_items_msg
                (http.mkResponse 200 ("null", None) (Some get_items_msg))
                "null")
      as (resp & s' & R & Sl & Ho).
    + apply sends_build; eexists; vm_compute; reflexivity.
    + reflexivity.
    + reflexivity.
    + discriminate.
    + discriminate.
    + exists resp, s'. split; [exact R|]. split; [exact Sl|exact Ho].
  - destruct (proj2 (X11_generic_destination (V:=jv)) (New (reply 200 "17"))
                (get_items_legacy Nil Nil) mem get_items_msg
                (http.mkResponse 200 ("17", None) (Some get_items_msg)) "17")
      as (resp & s' & R & Sl & Ho).
    + apply sends_build_legacy; eexists; vm_compute; reflexivity.
    + reflexivity.
    + reflexivity.
    + discriminate.
    + discriminate.
    + exists resp, s'. split; [exact R|]. split; [exact Sl|exact Ho].
Defined.


(** X13, for the package-level [Do] at a status 404 with body [17]. *)
Lemma X13_witness :
  Part000.defaults (New (reply 404 "17")) (get_items p1 Nil)
    = get_items p1 Nil /\
  exists s',
    Part000.Do (reply 404 "17") (get_items p1 Nil) mem =
      Ret (Some (Part000.Response.mk 404 zeroTime p1 (Val (JNum 17)) "17"
                   None), None) s' /\
    objs s' = objs mem.
Proof.
  apply (X13_default_client (V:=jv) (reply 404 "17") (get_items p1 Nil) mem
           get_items_msg
           (http.mkResponse 404 ("17", None) (Some get_items_msg)) "17"
           (JNum 17)).
  - apply sends_build; eexists; vm_compute; reflexivity.
  - reflexivity.
  - reflexivity.
  - discriminate.
  - reflexivity.
  - reflexivity.
  - reflexivity.
Defined.


(** X16, at a status 404 with body [17]. *)
Lemma X16_witness :
  Part000.Response.Request
    (Part000.Response.mk 404 zeroTime p1 p2 "17" None) = None /\
  exists hReq hResp,
    sends (Part000.Client_Do (New (reply 404 "17")) (get_items p1 p2)) mem
      hReq /\
    HttpClient (New (reply 404 "17") : Client jv) hReq
      = (Some hResp, None) /\
    Part000.Response.Status
      (Part000.Response.mk 404 zeroTime p1 p2 "17" None)
      = http.StatusCode hResp.
Proof.
  eapply (X16_result_shape (V:=jv) (New (reply 404 "17")) (get_items p1 p2)
            mem (Some (Part000.Response.mk 404 zeroTime p1 p2 "17" None))).
  vm_compute. reflexivity.
Defined.

(** X17, for a connection that is refused. *)
Lemma X17_witness :
  exists resp,
    Some (Restclient.Response.mk (Some (get_items_legacy p1 p2)) 0 p1 p2 "")
      = Some resp /\
    Restclient.Response.Request resp = Some (get_items_legacy p1 p2).
Proof.
  eapply (X17_result_shape_legacy (V:=jv) (New refused)
            (get_items_legacy p1 p2) mem).
  vm_compute. reflexivity.
Defined.

(** X18, for a cell that points to the first integer and the text
    [true], which is no integer. *)
Lemma X18_witness :
  exists s',
    unmarshal "true" 0 (mkState (objs mem) [p1] []) = Ret None s' /\
    objs s' = <[1%positive := JNum 0]> (objs mem) /\
    cells s' !! 0%nat = Some p1 /\
    (forall w, w <> 0%nat -> (w < 1)%nat -> cells s' !! w = [p1] !! w).
Proof.
  destruct (X18_unmarshal_effect (V:=jv) "true" 0
              (mkState (objs mem) [p1] []) p1)
    as (s' & R & Ho & Hc & Hw).
  - reflexivity.
  - exists s'. split; [exact R|]. split; [exact Ho|].
    split; [exact Hc|exact Hw].
Defined.

(** X19, for two entries visited in either order. *)
Lemma X19_witness :
  rangeSet_in [("a", "1"); ("b", "2")] {["a" := ["0"]]} =
  rangeSet_in [("b", "2"); ("a", "1")] {["a" := ["0"]]}.
Proof.
  apply (X19_loop_order [("a", "1"); ("b", "2")] [("b", "2"); ("a", "1")]
           {["a" := ["0"]]} {["a" := "1"; "b" := "2"]}).
  - vm_compute. apply perm_swap || reflexivity.
  - vm_compute. apply perm_swap || reflexivity.
Defined.

(** X20, for a raw URL whose keys are out of order: the empty map
    brings them into order, the nil map does not. *)
Lemma X20_witness :
  url_String
    (withParams GET (Some ∅)
       (url.mkURL "" "" "" "http://api.test/items" "b=2&a=1" ""))
    = "http://api.test/items?a=1&b=2" /\
  url_String
    (withParams GET None
       (url.mkURL "" "" "" "http://api.test/items" "b=2&a=1" ""))
    = "http://api.test/items?b=2&a=1".
Proof.
  destruct (X20_empty_params
              (url.mkURL "" "" "" "http://api.test/items" "b=2&a=1" ""))
    as [-> ->].
  split; reflexivity.
Defined.


(** X22, for a connection that is refused. *)
Lemma X22_witness :
  exists s' msg,
    Restclient.Client_Do (New refused) (get_items_legacy p1 p2) mem =
      Ret (Some (Restclient.Response.mk (Some (get_items_legacy p1 p2))
                   0 p1 p2 ""), Some "dial tcp: connection refused") s' /\
    objs s' = objs mem /\
    last (events (Restclient.Client_Do (New refused)
                    (get_items_legacy p1 p2)) mem)
      = Some (EvLog [LStr msg; LErr "dial tcp: connection refused"]) /\
    Forall (fun ev => is_read ev = false)
      (events (Restclient.Client_Do (New refused) (get_items_legacy p1 p2))
         mem).
Proof.
  apply (X22_transport_failure_legacy (V:=jv) (New refused)
           (get_items_legacy p1 p2) mem get_items_msg None
           "dial tcp: connection refused").
  - apply sends_build_legacy; eexists; vm_compute; reflexivity.
  - reflexivity.
Defined.

(** X23, for a transport that gives up on a redirect. *)
Lemma X23_witness :
  exists s' msg,
    Part000.Client_Do (New redirect_stopped) (get_items p1 p2) mem
      = Ret (None, Some "stopped after 10 redirects") s' /\
    objs s' = objs mem /\
    last (events (Part000.Client_Do (New redirect_stopped)
                    (get_items p1 p2)) mem)
      = Some (EvLog [LStr msg]) /\
    Forall (fun ev => is_read ev = false /\ is_decode ev = false)
      (events (Part000.Client_Do (New redirect_stopped) (get_items p1 p2))
         mem).
Proof.
  apply (X23_transport_failure_with_response (V:=jv) (New redirect_stopped)
           (get_items p1 p2) mem get_items_msg
           (http.mkResponse 302 ("", None) (Some get_items_msg))
           "stopped after 10 redirects").
  - apply sends_build; eexists; vm_compute; reflexivity.
  - reflexivity.
Defined.
